(** * unit_env_iii: the SHT3x read path of the ENV III unit driver

    A shallow embedding of [unit_env_iii.c]: the driver's single session
    ([static sht3x_t _dev]), its accessors, the CRC-8 routine and the
    byte swap of the command word.  The source file holds two revisions
    of the driver; the later one, with the read path written out, is the
    one embedded here.  C integers are [Z] with their wrap-around
    written out; the session is threaded explicitly; what the driver
    does to the outside world (bus transactions, log lines) is recorded
    in a trace. *)

From Stdlib Require Import ZArith List Bool String Lia QArith.
From Stdlib.Strings Require Import Byte.
Import ListNotations.
Open Scope Z_scope.

(** ** Machine integers *)

Definition u8 (x : Z) : Z := x mod 2 ^ 8.
Definition u16 (x : Z) : Z := x mod 2 ^ 16.
Definition u64 (x : Z) : Z := x mod 2 ^ 64.

(** The value of a [uint8_t] array cell. *)
Definition byte_val (b : byte) : Z := Z.of_N (Byte.to_N b).

(** Bytes from their value, for writing frames down. *)
Definition byte_of_Z (x : Z) : byte :=
  match Byte.of_N (Z.to_N (u8 x)) with
  | Some b => b
  | None => x00
  end.

(** ** Platform: error codes (esp_err.h) *)

Definition esp_err_t := Z.
Definition ESP_OK : esp_err_t := 0.
Definition ESP_FAIL : esp_err_t := -1.
Definition ESP_ERR_INVALID_ARG : esp_err_t := 0x102.
Definition ESP_ERR_INVALID_STATE : esp_err_t := 0x103.
Definition ESP_ERR_INVALID_CRC : esp_err_t := 0x109.

(** ** Constants of unit_env_iii.c *)

Definition SHT3X_FETCH_DATA_CMD : Z := 0xE000.
Definition SHT3X_MEAS_DURATION_REP_HIGH : Z := 15.
Definition SHT3X_MEAS_DURATION_REP_MEDIUM : Z := 6.
Definition SHT3X_MEAS_DURATION_REP_LOW : Z := 4.
Definition G_POLYNOM : Z := 0x31.

(** ** shuffle

    [return (val >> 8) | (val << 8);] on a [uint16_t]: the operands are
    promoted to [int], the result is converted back to [uint16_t]. *)
Definition shuffle (val : Z) : Z :=
  u16 (Z.lor (Z.shiftr val 8) (Z.shiftl val 8)).

(** ** crc8 *)

(** One round of the inner loop:
    [bool xor = crc & 0x80; crc = crc << 1; crc = xor ? crc ^ G_POLYNOM : crc;]
    with each assignment converting back to [uint8_t]. *)
Definition crc8_round (crc : Z) : Z :=
  let xor := negb (Z.land crc 0x80 =? 0) in
  let crc := u8 (Z.shiftl crc 1) in
  u8 (if xor then Z.lxor crc G_POLYNOM else crc).

(** A counting loop [for (int i = from; ...; i++)] that runs [n] times
    from index [i], threading the variables the body assigns. *)
Fixpoint for_loop {A : Type} (n : nat) (i : nat) (body : nat -> A -> A)
    (a : A) : A :=
  match n with
  | O => a
  | S n' => for_loop n' (S i) body (body i a)
  end.

(** The body of the outer loop: [crc ^= data[i];] and the eight rounds
    of the inner loop.  [data] is the array the pointer argument points
    into.  A read past its end is undefined in C; the model reads zero
    there, and every caller passes a length within the array. *)
Definition crc8_body (data : list byte) (i : nat) (crc : Z) : Z :=
  let crc := u8 (Z.lxor crc (byte_val (nth i data x00))) in
  for_loop 8 0 (fun _ crc => crc8_round crc) crc.

(** [for (int i = 0; i < len; i++)]: a negative [len] runs the loop no
    time. *)
Definition crc8 (data : list byte) (len : Z) : Z :=
  (* initialization value *)
  let crc := 0xff in
  (* iterate over all bytes *)
  for_loop (Z.to_nat len) 0 (crc8_body data) crc.

(** *** The CRC-8 of the specification

    Written from the specification's words, to be compared with [crc8]:
    an 8-bit register initialised to 0xFF; each byte is XORed into it,
    then eight times the register is shifted left by one and XORed with
    0x31 when the bit shifted out was set. *)
Definition crc8_ref_shift (reg : Z) : Z :=
  let shifted := (2 * reg) mod 256 in
  if Z.testbit reg 7 then Z.lxor shifted 0x31 else shifted.

Definition crc8_ref_byte (reg : Z) (b : byte) : Z :=
  Nat.iter 8 crc8_ref_shift (Z.lxor reg (byte_val b)).

Definition crc8_ref (bytes : list byte) : Z :=
  fold_left crc8_ref_byte bytes 0xFF.

(** ** The sensor library's declarations (sht3x.h)

    The header of the SHT3x library is not among the sources; its types
    are written down as the driver uses them. *)

(** Modelled from the spec: [sht3x_mode_t], the measurement mode, is
    missing; the specification's session has a two-valued mode
    (single-shot or periodic), named here as the sources name them. *)
Inductive sht3x_mode_t : Type :=
  | SHT3X_SINGLE_SHOT
  | SHT3X_PERIODIC_1MPS.

(** Modelled from the spec: [sht3x_repeat_t], the repeatability, is
    missing; three values, in the order in which the driver's duration
    table lists them. *)
Inductive sht3x_repeat_t : Type :=
  | SHT3X_HIGH
  | SHT3X_MEDIUM
  | SHT3X_LOW.

(** The enumerator as an array index. *)
Definition repeat_index (r : sht3x_repeat_t) : nat :=
  match r with
  | SHT3X_HIGH => 0
  | SHT3X_MEDIUM => 1
  | SHT3X_LOW => 2
  end%nat.

Definition sht3x_mode_eqb (a b : sht3x_mode_t) : bool :=
  match a, b with
  | SHT3X_SINGLE_SHOT, SHT3X_SINGLE_SHOT => true
  | SHT3X_PERIODIC_1MPS, SHT3X_PERIODIC_1MPS => true
  | _, _ => false
  end.

(** Modelled from the spec: [i2c_dev_t], the bus descriptor, is missing;
    only the device address it is bound to is kept. *)
Record i2c_dev_t : Type := mk_i2c_dev { addr : Z }.

(** Modelled from the spec: [sht3x_t], the session, is missing; its
    fields are the ones the driver reads and writes
    ([i2c_dev], [mode], [repeatability], [meas_started], [meas_first],
    [meas_start_time], the last a [uint64_t] in microseconds). *)
Record sht3x_t : Type := mk_sht3x {
  i2c_dev : i2c_dev_t;
  mode : sht3x_mode_t;
  repeatability : sht3x_repeat_t;
  meas_started : bool;
  meas_start_time : Z;
  meas_first : bool
}.

(** [sht3x_raw_data_t] is [uint8_t[6]]:
    temperature MSB, LSB, CRC, humidity MSB, LSB, CRC. *)
Record sht3x_raw_data_t : Type := mk_raw {
  raw0 : byte; raw1 : byte; raw2 : byte;
  raw3 : byte; raw4 : byte; raw5 : byte
}.

(** The array behind the pointer [raw_data]; [raw_data + k] is
    [skipn k] of it, [raw_data[k]] is [raw_at k]. *)
Definition raw_array (r : sht3x_raw_data_t) : list byte :=
  [raw0 r; raw1 r; raw2 r; raw3 r; raw4 r; raw5 r].

Definition raw_at (r : sht3x_raw_data_t) (k : nat) : Z :=
  byte_val (nth k (raw_array r) x00).

Definition sizeof_sht3x_raw_data_t : Z := 6.

(** Modelled from the spec: [SHT3X_I2C_ADDR_GND], the sensor's fixed bus
    address, is missing; 0x44 is the address the driver's first header
    gives for the unit. *)
Definition SHT3X_I2C_ADDR_GND : Z := 0x44.

(** ** The outside world *)

Inductive log_level : Type := LOG_ERROR | LOG_DEBUG.

(** What the driver does that can be observed from outside, in the order
    in which it happens. *)
Inductive event : Type :=
  | EvLog (lvl : log_level) (tag msg : string)
  | EvInitDesc (address : Z)
  | EvInit
  | EvStart (m : sht3x_mode_t) (r : sht3x_repeat_t)
  | EvI2cRead (sent : list byte) (in_size : Z).

(** The driver's state: the single session and the trace so far. *)
Record state : Type := mk_state {
  _dev : sht3x_t;
  trace : list event
}.

(** What the collaborators answer during one call of the driver. *)
Record env : Type := mk_env {
  esp_timer_get_time : Z;
  init_desc_reply : esp_err_t;
  init_reply : esp_err_t;
  start_reply : esp_err_t;
  read_reply : esp_err_t * sht3x_raw_data_t
}.

(** What a call hands back: the returned code, what it wrote through its
    out-parameters ([None]: nothing was written) and the state after. *)
Record result (O : Type) : Type := mk_result {
  ret : esp_err_t;
  out : O;
  after : state
}.
Arguments mk_result {O} _ _ _.
Arguments ret {O} _.
Arguments out {O} _.
Arguments after {O} _.

(** A call either returns or ends the program ([abort ()]). *)
Inductive outcome (R : Type) : Type :=
  | Returned (r : R)
  | Aborted (s : state).
Arguments Returned {R} _.
Arguments Aborted {R} _.

Definition _TAG : string := "UNIT_ENV_III".

Definition emit (e : event) (s : state) : state :=
  mk_state (_dev s) (trace s ++ [e]).

Definition ESP_LOGE (tag msg : string) (s : state) : state :=
  emit (EvLog LOG_ERROR tag msg) s.

Definition ESP_LOGD (tag msg : string) (s : state) : state :=
  emit (EvLog LOG_DEBUG tag msg) s.

Definition with_dev (d : sht3x_t) (s : state) : state :=
  mk_state d (trace s).

Definition set_meas_first (b : bool) (d : sht3x_t) : sht3x_t :=
  mk_sht3x (i2c_dev d) (mode d) (repeatability d) (meas_started d)
           (meas_start_time d) b.

Definition set_meas_started (b : bool) (d : sht3x_t) : sht3x_t :=
  mk_sht3x (i2c_dev d) (mode d) (repeatability d) b
           (meas_start_time d) (meas_first d).

(** [memset (&_dev, 0, sizeof (sht3x_t))]: every field zero, the
    enumerations at their first member. *)
Definition zero_dev : sht3x_t :=
  mk_sht3x (mk_i2c_dev 0) SHT3X_SINGLE_SHOT SHT3X_HIGH false 0 false.

(** The object representation of a [uint16_t] on the little-endian
    ESP32: low byte at the lower address. *)
Definition uint16_bytes (v : Z) : list byte :=
  [byte_of_Z (v mod 256); byte_of_Z (v / 256)].

(** Modelled from the spec: [i2c_dev_read], the transport's read, is
    missing; a byte-oriented read that sends the command bytes, reads
    [in_size] bytes back into the buffer and reports a bus failure
    through its return code.  As the I2C device library declares it,
    the argument after [out_data] is [out_size], the number of bytes to
    send from there. *)
Definition i2c_dev_read (w : env) (out_data : list byte) (out_size : Z)
    (in_size : Z) (s : state) : esp_err_t * sht3x_raw_data_t * state :=
  (fst (read_reply w), snd (read_reply w),
   emit (EvI2cRead (firstn (Z.to_nat out_size) out_data) in_size) s).

(** Modelled from the spec: [sht3x_compute_values], the conversion of
    the sensor library, is missing; temperature = -45 + 175 * rawTemp /
    65535 and humidity = 100 * rawHum / 65535, as exact rationals
    (the rounding to [float] is not modelled). *)
Definition sht3x_compute_values (raw_data : sht3x_raw_data_t)
    : esp_err_t * (option Q * option Q) :=
  let rawTemp := raw_at raw_data 0 * 256 + raw_at raw_data 1 in
  let rawHum := raw_at raw_data 3 * 256 + raw_at raw_data 4 in
  (ESP_OK,
   (Some (inject_Z (-45) + inject_Z 175 * inject_Z rawTemp / inject_Z 65535)%Q,
    Some (inject_Z 100 * inject_Z rawHum / inject_Z 65535)%Q)).

(** Modelled from the spec: [sht3x_get_measurement_duration], the
    duration lookup of the sensor library, is missing; the duration
    table by repeatability is High = 15, Medium = 6, Low = 4. *)
Definition sht3x_get_measurement_duration (repeat : sht3x_repeat_t) : Z :=
  match repeat with
  | SHT3X_HIGH => 15
  | SHT3X_MEDIUM => 6
  | SHT3X_LOW => 4
  end.

(** Modelled from the spec: [sht3x_init_desc], the descriptor binding of
    the sensor library, is missing; it binds the session to the
    transport at the given address and reports whether the transport
    could be opened. *)
Definition sht3x_init_desc (w : env) (address : Z) (s : state)
    : esp_err_t * state :=
  let d := _dev s in
  let d := mk_sht3x (mk_i2c_dev address) (mode d) (repeatability d)
                    (meas_started d) (meas_start_time d) (meas_first d) in
  (init_desc_reply w, emit (EvInitDesc address) (with_dev d s)).

(** Modelled from the spec: [sht3x_init], the device initialisation of
    the sensor library, is missing; it resets the measurement
    bookkeeping, issues the sensor's init command and reports whether
    the sensor acknowledged it. *)
Definition sht3x_init (w : env) (s : state) : esp_err_t * state :=
  let d := _dev s in
  let d := mk_sht3x (i2c_dev d) SHT3X_SINGLE_SHOT (repeatability d)
                    false 0 false in
  (init_reply w, emit EvInit (with_dev d s)).

(** Modelled from the spec: [sht3x_start_measurement], the start command
    of the sensor library, is missing; it issues the measurement-start
    command in the given mode and, once the command went through, sets
    [meas_started] and [meas_first] and records the start time. *)
Definition sht3x_start_measurement (w : env) (m : sht3x_mode_t)
    (repeat : sht3x_repeat_t) (s : state) : esp_err_t * state :=
  let d := _dev s in
  let d := mk_sht3x (i2c_dev d) m repeat (meas_started d)
                    (meas_start_time d) (meas_first d) in
  let s := emit (EvStart m repeat) (with_dev d s) in
  if negb (start_reply w =? ESP_OK) then (start_reply w, s)
  else
    let d := mk_sht3x (i2c_dev d) m repeat true
                      (u64 (esp_timer_get_time w)) true in
    (ESP_OK, with_dev d s).

(** ** The driver (unit_env_iii.c) *)

(** [// measurement durations in us], a table of [uint16_t]. *)
Definition SHT3X_MEAS_DURATION_US : list Z :=
  [ u16 (SHT3X_MEAS_DURATION_REP_HIGH * 1000);
    u16 (SHT3X_MEAS_DURATION_REP_MEDIUM * 1000);
    u16 (SHT3X_MEAS_DURATION_REP_LOW * 1000) ].

(** [SHT3X_MEAS_DURATION_US[r]]. *)
Definition duration_us (r : sht3x_repeat_t) : Z :=
  nth (repeat_index r) SHT3X_MEAS_DURATION_US 0.

(** The time since the start as the driver computes it: the signed
    timer value minus the unsigned start time, in [uint64_t]. *)
Definition elapsed (w : env) (dev : sht3x_t) : Z :=
  u64 (esp_timer_get_time w - meas_start_time dev).

Definition is_measuring (w : env) (dev : sht3x_t) : bool :=
  (* not running if measurement is not started at all or
     it is not the first measurement in periodic mode *)
  if negb (meas_started dev) || negb (meas_first dev) then false
  else
    (* not running if time elapsed is greater than duration *)
    elapsed w dev <? duration_us (repeatability dev).

(** The file's own [CHECK (x)]: leave the function with [x] unless it
    is [ESP_OK]. *)
Definition CHECK {O : Type} (x : esp_err_t) (nothing : O) (s : state)
    (k : state -> result O) : result O :=
  if negb (x =? ESP_OK) then mk_result x nothing s else k s.

Definition unit_enviii_temp_humidity_get (w : env) (s : state)
    : result (option Q * option Q) :=
  if negb (meas_started (_dev s)) then
    mk_result ESP_ERR_INVALID_STATE (None, None)
              (ESP_LOGE _TAG "Measurement is not started" s)
  else if is_measuring w (_dev s) then
    mk_result ESP_ERR_INVALID_STATE (None, None)
              (ESP_LOGE _TAG "Measurement is still running" s)
  else
    (* read raw data *)
    let cmd := shuffle SHT3X_FETCH_DATA_CMD in
    let '(err, raw_data, s) :=
      i2c_dev_read w (uint16_bytes cmd) 1 sizeof_sht3x_raw_data_t s in
    CHECK err (None, None) s (fun s =>
      (* reset first measurement flag *)
      let s := with_dev (set_meas_first false (_dev s)) s in
      (* reset measurement started flag in single shot mode *)
      let s :=
        if sht3x_mode_eqb (mode (_dev s)) SHT3X_SINGLE_SHOT
        then with_dev (set_meas_started false (_dev s)) s
        else s in
      (* check temperature crc *)
      if negb (crc8 (raw_array raw_data) 2 =? raw_at raw_data 2) then
        mk_result ESP_ERR_INVALID_CRC (None, None)
                  (ESP_LOGE _TAG "CRC check for temperature data failed" s)
      (* check humidity crc *)
      else if negb (crc8 (skipn 3 (raw_array raw_data)) 2 =? raw_at raw_data 5) then
        mk_result ESP_ERR_INVALID_CRC (None, None)
                  (ESP_LOGE _TAG "CRC check for humidity data failed" s)
      else
        let '(e, written) := sht3x_compute_values raw_data in
        mk_result e written s).

Definition _unit_enviii_qmp6988_get (s : state)
    : result (option Q * option Q) :=
  mk_result ESP_OK (None, None) s.

(** [zero_temp] is a local; what may be written through [pressure] is
    what the callee writes through its first parameter. *)
Definition unit_enviii_pressure_get (s : state) : result (option Q) :=
  let r := _unit_enviii_qmp6988_get s in
  mk_result (ret r) (fst (out r)) (after r).

Definition unit_enviii_altitude_get (s : state) : result (option Q) :=
  mk_result ESP_OK None s.

Section Build.

(** The build's configuration: [#define REPEATABILITY_MODE], which the
    sources set to [SHT3X_HIGH], and whether assertions are compiled
    out ([NDEBUG]). *)
Variable REPEATABILITY_MODE : sht3x_repeat_t.
Variable NDEBUG : bool.

(** [ESP_ERROR_CHECK (x)] is the platform's macro (esp_err.h); it is not
    among the sources, and is written down as the platform documents it:
    when [x] is not [ESP_OK] the program is aborted; with [NDEBUG] the
    code is evaluated and dropped.  In neither case does the enclosing
    function return. *)
Definition ESP_ERROR_CHECK {R : Type} (x : esp_err_t) (s : state)
    (k : state -> outcome R) : outcome R :=
  if NDEBUG then k s
  else if negb (x =? ESP_OK) then Aborted s
  else k s.

Definition unit_enviii_duration_get (s : state) : result (option Z) :=
  let ret := ESP_OK in
  let duration := u8 (sht3x_get_measurement_duration REPEATABILITY_MODE) in
  mk_result ret (Some duration) s.

Definition unit_enviii_init (w : env) (s : state)
    : outcome (result (option Z)) :=
  let s := with_dev zero_dev s in
  let '(e, s) := sht3x_init_desc w SHT3X_I2C_ADDR_GND s in
  ESP_ERROR_CHECK e s (fun s =>
    let s := ESP_LOGD _TAG "Setting SHT30 initial device descriptor success" s in
    let '(e, s) := sht3x_init w s in
    ESP_ERROR_CHECK e s (fun s =>
      let s := ESP_LOGD _TAG "Initializing SHT30 sensor success" s in
      Returned (unit_enviii_duration_get s))).

Definition unit_enviii_temp_humidity_measure (w : env) (s : state)
    : result unit :=
  let '(err, s) :=
    sht3x_start_measurement w SHT3X_SINGLE_SHOT REPEATABILITY_MODE s in
  let s :=
    ESP_LOGD _TAG "Start single measurement from SHT30 with high repeatability" s in
  mk_result err tt s.

End Build.

(** The configuration the sources ship. *)
Definition shipped_REPEATABILITY_MODE : sht3x_repeat_t := SHT3X_HIGH.

(** ** Concrete sessions and frames *)

(** The session right after [memset], nothing traced yet. *)
Definition fresh : state := mk_state zero_dev [].

(** A frame with both fields zero and both checksums right, and the
    same frame with its third byte (the temperature checksum) or its
    sixth byte (the humidity checksum) corrupted. *)
Definition frame_zero : sht3x_raw_data_t := mk_raw x00 x00 x81 x00 x00 x81.
Definition frame_bad_temp : sht3x_raw_data_t := mk_raw x00 x00 x00 x00 x00 x81.
Definition frame_bad_both : sht3x_raw_data_t := mk_raw x00 x00 x00 x00 x00 x00.

(** A world in which every collaborator succeeds, at time [now], with
    the bus answering [frame]. *)
Definition world (now : Z) (frame : sht3x_raw_data_t) : env :=
  mk_env now ESP_OK ESP_OK ESP_OK (ESP_OK, frame).

(** The session after one single-shot start at time 0. *)
Definition started : state :=
  after (unit_enviii_temp_humidity_measure shipped_REPEATABILITY_MODE
           (world 0 frame_zero) fresh).

(** A periodic session past its first read. *)
Definition periodic_running : state :=
  mk_state (mk_sht3x (mk_i2c_dev SHT3X_I2C_ADDR_GND) SHT3X_PERIODIC_1MPS
                     SHT3X_HIGH true 0 false) [].

(** What a passed fetch does to the session before it looks at the
    frame: the bus read is traced, [meas_first] is cleared and, in
    single-shot mode, [meas_started] too. *)
Definition fetch_sent : list byte := [xe0].

Definition consumed (s : state) : state :=
  let s := emit (EvI2cRead fetch_sent sizeof_sht3x_raw_data_t) s in
  let s := with_dev (set_meas_first false (_dev s)) s in
  if sht3x_mode_eqb (mode (_dev s)) SHT3X_SINGLE_SHOT
  then with_dev (set_meas_started false (_dev s)) s
  else s.

(** ** Sequences of calls *)

(** The bus reads recorded in a trace. *)
Fixpoint bus_reads (t : list event) : nat :=
  match t with
  | [] => O
  | EvI2cRead _ _ :: t' => S (bus_reads t')
  | _ :: t' => bus_reads t'
  end.

(** Fetch after fetch, each in its own world. *)
Definition fetch_all (ws : list env) (s : state) : state :=
  fold_left (fun s w => after (unit_enviii_temp_humidity_get w s)) ws s.

(** What an application does with the driver once it is initialised. *)
Inductive call : Type :=
  | CallMeasure (w : env)
  | CallGet (w : env).

(** Over a sequence of calls: how many starts went through, and how many
    fetches returned [ESP_OK]. *)
Fixpoint count_ok (r : sht3x_repeat_t) (cs : list call) (s : state)
    : nat * nat :=
  match cs with
  | [] => (O, O)
  | CallMeasure w :: cs' =>
      let m := unit_enviii_temp_humidity_measure r w s in
      let '(starts, fetches) := count_ok r cs' (after m) in
      (if ret m =? ESP_OK then S starts else starts, fetches)
  | CallGet w :: cs' =>
      let f := unit_enviii_temp_humidity_get w s in
      let '(starts, fetches) := count_ok r cs' (after f) in
      (starts, if ret f =? ESP_OK then S fetches else fetches)
  end.

(** Two frames that differ in the byte at index [k] and nowhere else. *)
Definition differ_at (k : nat) (f g : sht3x_raw_data_t) : Prop :=
  nth k (raw_array f) x00 <> nth k (raw_array g) x00 /\
  forall j : nat, j <> k -> nth j (raw_array f) x00 = nth j (raw_array g) x00.

(** A frame whose two checksums are right. *)
Definition frame_valid (f : sht3x_raw_data_t) : Prop :=
  crc8_ref [raw0 f; raw1 f] = byte_val (raw2 f) /\
  crc8_ref [raw3 f; raw4 f] = byte_val (raw5 f).

(** [frame_zero] with its first data byte flipped, and with its
    humidity checksum corrupted. *)
Definition frame_flipped : sht3x_raw_data_t := mk_raw x01 x00 x81 x00 x00 x81.
Definition frame_bad_hum : sht3x_raw_data_t := mk_raw x00 x00 x81 x00 x00 x00.

(** A world like [world], but with the bus failing. *)
Definition world_bus_down (now : Z) : env :=
  mk_env now ESP_OK ESP_OK ESP_OK (ESP_FAIL, frame_zero).

(** A bounded universal quantifier over [0 .. n-1], to decide facts
    about bytes by running through them. *)
Fixpoint all_below (n : nat) (P : Z -> bool) : bool :=
  match n with
  | O => true
  | S k => P (Z.of_nat k) && all_below k P
  end.

(** ** The earlier revision of unit_enviii_init

    The first revision in the source file accumulates the return codes
    with [err |= ...], logs after each step with [ESP_LOGI] and starts a
    periodic measurement.  Its log lines carry the accumulated code, so
    its trace has an event of its own for them beside the events of the
    library calls. *)
Module Rev1.

Inductive event1 : Type :=
  | Lib (e : event)
  | EvLogI (tag fmt : string) (arg : Z).

Record state1 : Type := mk_state1 {
  dev1 : sht3x_t;
  trace1 : list event1
}.

(** A library call run on the session of [state1], its events appended
    to the trace. *)
Definition lift {A : Type} (f : state -> A * state) (s : state1)
    : A * state1 :=
  let '(a, s') := f (mk_state (dev1 s) []) in
  (a, mk_state1 (_dev s') (trace1 s ++ map Lib (trace s'))).

Definition ESP_LOGI (tag fmt : string) (arg : Z) (s : state1) : state1 :=
  mk_state1 (dev1 s) (trace1 s ++ [EvLogI tag fmt arg]).

Definition unit_enviii_duration_get (REPEATABILITY_MODE : sht3x_repeat_t)
    (s : state1) : esp_err_t * option Z * state1 :=
  let ret := ESP_OK in
  let duration := u8 (sht3x_get_measurement_duration REPEATABILITY_MODE) in
  (ret, Some duration, s).

(** [COMMON_I2C_EXTERNAL], the board's identifier of the external bus,
    is a macro of the board support package and not among the sources;
    it is a parameter.  This revision passes it as the second argument
    of [sht3x_init_desc], the place where the later revision passes the
    sensor's address, and [SHT3X_I2C_ADDR_GND] after it; the arguments
    are kept in the places the source gives them, so the descriptor is
    bound with [COMMON_I2C_EXTERNAL] in the address place. *)
Definition unit_enviii_init (COMMON_I2C_EXTERNAL : Z)
    (REPEATABILITY_MODE : sht3x_repeat_t)
    (w : env) (s : state1) : esp_err_t * option Z * state1 :=
  let err := ESP_OK in
  let s := mk_state1 zero_dev (trace1 s) in
  let '(e, s) := lift (sht3x_init_desc w COMMON_I2C_EXTERNAL) s in
  let err := Z.lor err e in
  let s := ESP_LOGI _TAG "Init_DESC %d" err s in
  let '(e, s) := lift (sht3x_init w) s in
  let err := Z.lor err e in
  let s := ESP_LOGI _TAG "Init %d" err s in
  let '(e, s) :=
    lift (sht3x_start_measurement w SHT3X_PERIODIC_1MPS REPEATABILITY_MODE) s in
  let err := Z.lor err e in
  let s := ESP_LOGI _TAG "Start measure %d" err s in
  let '(_, duration_to_wait, s) := unit_enviii_duration_get REPEATABILITY_MODE s in
  (err, duration_to_wait, s).

(** The library calls in a trace, in order. *)
Fixpoint lib_events (t : list event1) : list event :=
  match t with
  | [] => []
  | Lib e :: t' => e :: lib_events t'
  | EvLogI _ _ _ :: t' => lib_events t'
  end.

End Rev1.

(** * Facts about the arithmetic *)

Lemma byte_val_range (b : byte) : 0 <= byte_val b < 256.
Proof.
  unfold byte_val. pose proof (Byte.to_N_bounded b). lia.
Qed.

Lemma u8_small (c : Z) : 0 <= c < 256 -> u8 c = c.
Proof.
  intros Hc. unfold u8. change (2 ^ 8) with 256. now apply Z.mod_small.
Qed.

Lemma u8_range (c : Z) : 0 <= u8 c < 256.
Proof.
  unfold u8. change (2 ^ 8) with 256. apply Z.mod_pos_bound. lia.
Qed.

Lemma byte_bits_high (c n : Z) :
  0 <= c < 256 -> 8 <= n -> Z.testbit c n = false.
Proof.
  intros Hc Hn.
  rewrite <- (Z.mod_small c (2 ^ 8)) by (change (2 ^ 8) with 256; lia).
  apply Z.mod_pow2_bits_high. lia.
Qed.

Lemma lxor_byte_range (a b : Z) :
  0 <= a < 256 -> 0 <= b < 256 -> 0 <= Z.lxor a b < 256.
Proof.
  intros Ha Hb.
  assert (E : Z.lxor a b mod 2 ^ 8 = Z.lxor a b).
  { apply Z.bits_inj'. intros n Hn.
    destruct (Z.lt_ge_cases n 8) as [Hlo | Hhi].
    - apply Z.mod_pow2_bits_low. lia.
    - rewrite Z.mod_pow2_bits_high by lia.
      rewrite Z.lxor_spec, !byte_bits_high by lia. reflexivity. }
  pose proof (Z.mod_pos_bound (Z.lxor a b) (2 ^ 8)) as B.
  change (2 ^ 8) with 256 in *. lia.
Qed.

(** [crc & 0x80] is non-zero exactly when bit 7 of [crc] is set. *)
Lemma msb_mask (c : Z) : negb (Z.land c 0x80 =? 0) = Z.testbit c 7.
Proof.
  destruct (Z.testbit c 7) eqn:E.
  - assert (H : Z.testbit (Z.land c 0x80) 7 = true).
    { rewrite Z.land_spec, E. reflexivity. }
    destruct (Z.eqb_spec (Z.land c 0x80) 0) as [H0 | _]; [| reflexivity].
    rewrite H0 in H. discriminate H.
  - assert (H : Z.land c 0x80 = 0).
    { apply Z.bits_inj'. intros n Hn.
      rewrite Z.land_spec, Z.bits_0.
      change 0x80 with (2 ^ 7). rewrite Z.pow2_bits_eqb by lia.
      destruct (Z.eqb_spec 7 n) as [<- | _].
      - rewrite E. reflexivity.
      - apply andb_false_r. }
    rewrite H. reflexivity.
Qed.

(** ** crc8 against the reference *)

Lemma crc8_ref_shift_range (c : Z) :
  0 <= c < 256 -> 0 <= crc8_ref_shift c < 256.
Proof.
  intros Hc. unfold crc8_ref_shift.
  pose proof (Z.mod_pos_bound (2 * c) 256) as B.
  destruct (Z.testbit c 7); [apply lxor_byte_range |]; lia.
Qed.

Lemma crc8_round_ref (c : Z) :
  0 <= c < 256 -> crc8_round c = crc8_ref_shift c.
Proof.
  intros Hc. unfold crc8_round, crc8_ref_shift.
  rewrite msb_mask, Z.shiftl_mul_pow2 by lia.
  assert (S : u8 (c * 2 ^ 1) = (2 * c) mod 256).
  { unfold u8. change (2 ^ 8) with 256. f_equal. lia. }
  rewrite S.
  pose proof (Z.mod_pos_bound (2 * c) 256) as B.
  apply u8_small.
  destruct (Z.testbit c 7); [apply lxor_byte_range; unfold G_POLYNOM |]; lia.
Qed.

Lemma for_loop_S {A : Type} (n i : nat) (body : nat -> A -> A) (a : A) :
  for_loop (S n) i body a = for_loop n (S i) body (body i a).
Proof. reflexivity. Qed.

(** The inner loop is [k] shifts of the reference register. *)
Lemma crc8_rounds_ref (k i : nat) (c : Z) :
  0 <= c < 256 ->
  for_loop k i (fun _ crc => crc8_round crc) c = Nat.iter k crc8_ref_shift c /\
  0 <= Nat.iter k crc8_ref_shift c < 256.
Proof.
  revert i c. induction k as [| k IH]; intros i c Hc.
  - split; [reflexivity | exact Hc].
  - rewrite for_loop_S, Nat.iter_succ_r, (crc8_round_ref c Hc).
    apply IH, crc8_ref_shift_range, Hc.
Qed.

Lemma crc8_ref_byte_range (reg : Z) (b : byte) :
  0 <= reg < 256 -> 0 <= crc8_ref_byte reg b < 256.
Proof.
  intros Hr. unfold crc8_ref_byte.
  apply (crc8_rounds_ref 8 0), lxor_byte_range;
    [exact Hr | apply byte_val_range].
Qed.

Lemma crc8_body_ref (data : list byte) (i : nat) (crc : Z) :
  0 <= crc < 256 ->
  crc8_body data i crc = crc8_ref_byte crc (nth i data x00).
Proof.
  intros Hc. unfold crc8_body, crc8_ref_byte. cbv zeta.
  pose proof (lxor_byte_range crc _ Hc (byte_val_range (nth i data x00))) as Hx.
  rewrite (u8_small _ Hx).
  apply (crc8_rounds_ref 8 0), Hx.
Qed.

(** The loop over the indices of [rest] inside [pre ++ rest ++ post] is
    the fold over [rest]. *)
Lemma crc8_loop_ref (rest pre post : list byte) (crc : Z) :
  0 <= crc < 256 ->
  for_loop (List.length rest) (List.length pre)
           (crc8_body (pre ++ rest ++ post)) crc
  = fold_left crc8_ref_byte rest crc.
Proof.
  revert pre crc.
  induction rest as [| b rest IH]; intros pre crc Hc.
  - reflexivity.
  - cbn [List.length fold_left].
    rewrite for_loop_S, (crc8_body_ref _ _ _ Hc).
    change (pre ++ (b :: rest) ++ post) with (pre ++ b :: (rest ++ post)).
    rewrite nth_middle.
    specialize (IH (pre ++ [b]) (crc8_ref_byte crc b)
                   (crc8_ref_byte_range crc b Hc)).
    rewrite <- app_assoc, length_app, Nat.add_1_r in IH.
    exact IH.
Qed.

(** On a prefix of the array [crc8] is the reference checksum of that
    prefix. *)
Lemma crc8_prefix_ref (data post : list byte) :
  crc8 (data ++ post) (Z.of_nat (List.length data)) = crc8_ref data.
Proof.
  unfold crc8, crc8_ref. cbv zeta. rewrite Nat2Z.id.
  apply (crc8_loop_ref data [] post). lia.
Qed.

Lemma crc8_is_ref (data : list byte) :
  crc8 data (Z.of_nat (List.length data)) = crc8_ref data.
Proof.
  rewrite <- (app_nil_r data) at 1. apply crc8_prefix_ref.
Qed.

(** The two checks of the driver are the reference checksums of the
    temperature bytes and of the humidity bytes. *)
Lemma crc8_temperature (f : sht3x_raw_data_t) :
  crc8 (raw_array f) 2 = crc8_ref [raw0 f; raw1 f].
Proof.
  apply (crc8_prefix_ref [raw0 f; raw1 f] [raw2 f; raw3 f; raw4 f; raw5 f]).
Qed.

Lemma crc8_humidity (f : sht3x_raw_data_t) :
  crc8 (skipn 3 (raw_array f)) 2 = crc8_ref [raw3 f; raw4 f].
Proof.
  apply (crc8_prefix_ref [raw3 f; raw4 f] [raw5 f]).
Qed.

Lemma crc8_loop_range (data : list byte) (n i : nat) (crc : Z) :
  0 <= crc < 256 -> 0 <= for_loop n i (crc8_body data) crc < 256.
Proof.
  revert i crc. induction n as [| n IH]; intros i crc Hc.
  - exact Hc.
  - rewrite for_loop_S. apply IH.
    rewrite (crc8_body_ref _ _ _ Hc). now apply crc8_ref_byte_range.
Qed.

Lemma crc8_range (data : list byte) (len : Z) : 0 <= crc8 data len < 256.
Proof.
  unfold crc8. cbv zeta. apply crc8_loop_range. lia.
Qed.

(** ** shuffle *)

Lemma shuffle_swaps (v : Z) :
  0 <= v < 2 ^ 16 -> shuffle v = (v mod 256) * 256 + v / 256.
Proof.
  intros Hv. change (2 ^ 16) with 65536 in Hv.
  unfold shuffle, u16.
  rewrite Z.shiftr_div_pow2, Z.shiftl_mul_pow2 by lia.
  change (2 ^ 8) with 256.
  assert (Hq : 0 <= v / 256 < 256).
  { split; [apply Z.div_pos; lia | apply Z.div_lt_upper_bound; lia]. }
  assert (Hl : Z.land (v / 256) (v * 256) = 0).
  { apply Z.bits_inj'. intros n Hn. rewrite Z.land_spec, Z.bits_0.
    destruct (Z.lt_ge_cases n 8) as [Hlo | Hhi].
    - change 256 with (2 ^ 8) at 2.
      rewrite Z.mul_pow2_bits_low by lia. apply andb_false_r.
    - rewrite (byte_bits_high (v / 256)) by lia. reflexivity. }
  rewrite <- Z.lxor_lor by exact Hl.
  rewrite <- Z.add_nocarry_lxor by exact Hl.
  pose proof (Z.div_mod v 256 ltac:(lia)) as D.
  pose proof (Z.mod_pos_bound v 256 ltac:(lia)) as R.
  replace (v / 256 + v * 256)
    with ((v mod 256 * 256 + v / 256) + (v / 256) * 2 ^ 16)
    by (change (2 ^ 16) with 65536; lia).
  rewrite Z.mod_add by (change (2 ^ 16) with 65536; lia).
  apply Z.mod_small. change (2 ^ 16) with 65536. lia.
Qed.

(** * Facts about the driver *)

Lemma fetch_sent_bytes :
  firstn (Z.to_nat 1) (uint16_bytes (shuffle SHT3X_FETCH_DATA_CMD)) = fetch_sent.
Proof. vm_compute. reflexivity. Qed.

(** ** The paths of unit_enviii_temp_humidity_get *)

Lemma fetch_not_started (w : env) (s : state) :
  meas_started (_dev s) = false ->
  unit_enviii_temp_humidity_get w s
  = mk_result ESP_ERR_INVALID_STATE (None, None)
              (ESP_LOGE _TAG "Measurement is not started" s).
Proof.
  intros H. unfold unit_enviii_temp_humidity_get. rewrite H. reflexivity.
Qed.

Lemma fetch_still_measuring (w : env) (s : state) :
  meas_started (_dev s) = true ->
  is_measuring w (_dev s) = true ->
  unit_enviii_temp_humidity_get w s
  = mk_result ESP_ERR_INVALID_STATE (None, None)
              (ESP_LOGE _TAG "Measurement is still running" s).
Proof.
  intros H1 H2. unfold unit_enviii_temp_humidity_get.
  rewrite H1, H2. reflexivity.
Qed.

Lemma fetch_read_failed (w : env) (s : state) :
  meas_started (_dev s) = true ->
  is_measuring w (_dev s) = false ->
  fst (read_reply w) <> ESP_OK ->
  unit_enviii_temp_humidity_get w s
  = mk_result (fst (read_reply w)) (None, None)
              (emit (EvI2cRead fetch_sent sizeof_sht3x_raw_data_t) s).
Proof.
  intros H1 H2 H3. unfold unit_enviii_temp_humidity_get.
  rewrite H1, H2. cbn [negb]. unfold i2c_dev_read, CHECK.
  rewrite fetch_sent_bytes.
  destruct (Z.eqb_spec (fst (read_reply w)) ESP_OK) as [E | _];
    [contradiction | reflexivity].
Qed.

(** Past the read, the frame decides. *)
Lemma fetch_read_ok (w : env) (s : state) :
  meas_started (_dev s) = true ->
  is_measuring w (_dev s) = false ->
  fst (read_reply w) = ESP_OK ->
  unit_enviii_temp_humidity_get w s
  = let raw_data := snd (read_reply w) in
    if negb (crc8 (raw_array raw_data) 2 =? raw_at raw_data 2) then
      mk_result ESP_ERR_INVALID_CRC (None, None)
                (ESP_LOGE _TAG "CRC check for temperature data failed" (consumed s))
    else if negb (crc8 (skipn 3 (raw_array raw_data)) 2 =? raw_at raw_data 5) then
      mk_result ESP_ERR_INVALID_CRC (None, None)
                (ESP_LOGE _TAG "CRC check for humidity data failed" (consumed s))
    else
      mk_result (fst (sht3x_compute_values raw_data))
                (snd (sht3x_compute_values raw_data)) (consumed s).
Proof.
  intros H1 H2 H3. unfold unit_enviii_temp_humidity_get.
  rewrite H1, H2. cbn [negb]. unfold i2c_dev_read, CHECK.
  rewrite fetch_sent_bytes, H3.
  change (negb (ESP_OK =? ESP_OK)) with false. cbv iota zeta.
  fold (consumed s).
  destruct (negb (crc8 (raw_array (snd (read_reply w))) 2
                  =? raw_at (snd (read_reply w)) 2)); [reflexivity |].
  destruct (negb (crc8 (skipn 3 (raw_array (snd (read_reply w)))) 2
                  =? raw_at (snd (read_reply w)) 5)); reflexivity.
Qed.

Lemma consumed_meas_first (s : state) :
  meas_first (_dev (consumed s)) = false.
Proof.
  unfold consumed. cbv zeta.
  destruct (sht3x_mode_eqb _ _); reflexivity.
Qed.

Lemma consumed_single_shot (s : state) :
  mode (_dev s) = SHT3X_SINGLE_SHOT ->
  meas_started (_dev (consumed s)) = false.
Proof.
  intros H. unfold consumed. cbn. rewrite H. reflexivity.
Qed.

Lemma consumed_periodic (s : state) :
  mode (_dev s) <> SHT3X_SINGLE_SHOT ->
  meas_started (_dev (consumed s)) = meas_started (_dev s).
Proof.
  intros H. unfold consumed. cbn.
  destruct (mode (_dev s)); [contradiction | reflexivity].
Qed.

Lemma consumed_trace (s : state) :
  trace (consumed s)
  = trace s ++ [EvI2cRead fetch_sent sizeof_sht3x_raw_data_t].
Proof.
  unfold consumed. cbv zeta.
  destruct (sht3x_mode_eqb _ _); reflexivity.
Qed.

(** Whatever the frame, a fetch that got its frame leaves the session
    as [consumed] does, and has traced the bus read first. *)
Lemma fetch_read_ok_after (w : env) (s : state) :
  meas_started (_dev s) = true ->
  is_measuring w (_dev s) = false ->
  fst (read_reply w) = ESP_OK ->
  _dev (after (unit_enviii_temp_humidity_get w s)) = _dev (consumed s) /\
  exists logged,
    trace (after (unit_enviii_temp_humidity_get w s))
    = trace s ++ EvI2cRead fetch_sent sizeof_sht3x_raw_data_t :: logged.
Proof.
  intros H1 H2 H3. rewrite (fetch_read_ok w s H1 H2 H3). cbv zeta.
  destruct (negb (crc8 _ 2 =? _)); [| destruct (negb (crc8 _ 2 =? _))];
    (split; [reflexivity |]); cbn [after ESP_LOGE emit trace];
    rewrite consumed_trace, <- ?app_assoc; eexists; reflexivity.
Qed.

(** A fetch returns [ESP_OK] only past both preconditions and the read. *)
Lemma fetch_ok_passed (w : env) (s : state) :
  ret (unit_enviii_temp_humidity_get w s) = ESP_OK ->
  meas_started (_dev s) = true /\
  is_measuring w (_dev s) = false /\
  fst (read_reply w) = ESP_OK.
Proof.
  intros H.
  destruct (meas_started (_dev s)) eqn:H1.
  2:{ rewrite (fetch_not_started w s H1) in H. discriminate H. }
  destruct (is_measuring w (_dev s)) eqn:H2.
  1:{ rewrite (fetch_still_measuring w s H1 H2) in H. discriminate H. }
  destruct (Z.eq_dec (fst (read_reply w)) ESP_OK) as [H3 | H3].
  - auto.
  - rewrite (fetch_read_failed w s H1 H2 H3) in H. contradiction.
Qed.

(** What a start that went through leaves behind. *)
Lemma measure_ok (r : sht3x_repeat_t) (w : env) (s : state) :
  ret (unit_enviii_temp_humidity_measure r w s) = ESP_OK ->
  let d := _dev (after (unit_enviii_temp_humidity_measure r w s)) in
  mode d = SHT3X_SINGLE_SHOT /\ repeatability d = r /\
  meas_started d = true /\ meas_first d = true /\
  meas_start_time d = u64 (esp_timer_get_time w).
Proof.
  unfold unit_enviii_temp_humidity_measure, sht3x_start_measurement.
  cbv zeta.
  destruct (Z.eqb_spec (start_reply w) ESP_OK) as [E | E]; cbn.
  - intros _. split; [| split; [| split; [| split]]]; reflexivity.
  - intros H. contradiction.
Qed.

(** The wrap-around of [elapsed] is invisible while the timer is past
    the start and within its range. *)
Lemma elapsed_monotonic (w : env) (d : sht3x_t) :
  0 <= meas_start_time d <= esp_timer_get_time w ->
  esp_timer_get_time w < 2 ^ 63 ->
  elapsed w d = esp_timer_get_time w - meas_start_time d.
Proof.
  intros H1 H2. unfold elapsed, u64. apply Z.mod_small.
  assert (2 ^ 63 < 2 ^ 64) by (apply Z.pow_lt_mono_r; lia). lia.
Qed.

(** In single-shot mode a fetch that succeeds clears [meas_started]. *)
Lemma single_shot_fetch_clears_started (w : env) (s : state) :
  mode (_dev s) = SHT3X_SINGLE_SHOT ->
  ret (unit_enviii_temp_humidity_get w s) = ESP_OK ->
  meas_started (_dev (after (unit_enviii_temp_humidity_get w s))) = false.
Proof.
  intros Hmode Hok.
  destruct (fetch_ok_passed w s Hok) as (H1 & H2 & H3).
  destruct (fetch_read_ok_after w s H1 H2 H3) as [Hdev _].
  rewrite Hdev. now apply consumed_single_shot.
Qed.

(** * The claims *)

(** C1: in every session in which [meas_started] is false,
    [unit_enviii_temp_humidity_get] returns [ESP_ERR_INVALID_STATE] with
    the not-started diagnostic, writes through neither out-parameter,
    leaves the session as it was and performs no bus read: the one thing
    added to the trace is the log line. *)
Theorem fetch_before_start_fails (w : env) (s : state) :
  meas_started (_dev s) = false ->
  let r := unit_enviii_temp_humidity_get w s in
  ret r = ESP_ERR_INVALID_STATE /\
  out r = (None, None) /\
  _dev (after r) = _dev s /\
  trace (after r)
  = trace s ++ [EvLog LOG_ERROR _TAG "Measurement is not started"].
Proof.
  intros H r. subst r. rewrite (fetch_not_started w s H).
  split; [| split; [| split]]; reflexivity.
Qed.

Lemma fetch_before_start_fails_witness :
  meas_started (_dev fresh) = false /\
  ret (unit_enviii_temp_humidity_get (world 0 frame_zero) fresh)
  = ESP_ERR_INVALID_STATE.
Proof.
  split; [reflexivity |].
  apply (fetch_before_start_fails (world 0 frame_zero) fresh).
  reflexivity.
Defined.

(** C2: in single-shot mode a fetch that returns [ESP_OK] clears
    [meas_started]; so after one [unit_enviii_temp_humidity_measure]
    that went through and one successful fetch, a second fetch fails
    with [ESP_ERR_INVALID_STATE] and the not-started diagnostic, without
    a bus read. *)
Theorem single_shot_second_fetch_fails
    (r : sht3x_repeat_t) (w0 w1 w2 : env) (s0 : state) :
  let m := unit_enviii_temp_humidity_measure r w0 s0 in
  let f1 := unit_enviii_temp_humidity_get w1 (after m) in
  let f2 := unit_enviii_temp_humidity_get w2 (after f1) in
  ret m = ESP_OK ->
  ret f1 = ESP_OK ->
  mode (_dev (after m)) = SHT3X_SINGLE_SHOT /\
  meas_started (_dev (after m)) = true /\
  meas_started (_dev (after f1)) = false /\
  ret f2 = ESP_ERR_INVALID_STATE /\
  out f2 = (None, None) /\
  trace (after f2)
  = trace (after f1) ++ [EvLog LOG_ERROR _TAG "Measurement is not started"].
Proof.
  intros m f1 f2 Hm Hf1.
  destruct (measure_ok r w0 s0 Hm) as (Hmode & _ & Hst & _).
  fold m in Hmode, Hst.
  assert (Hoff : meas_started (_dev (after f1)) = false)
    by exact (single_shot_fetch_clears_started w1 (after m) Hmode Hf1).
  subst f2. rewrite (fetch_not_started w2 (after f1) Hoff).
  split; [exact Hmode | split; [exact Hst | split; [exact Hoff |]]].
  split; [| split]; reflexivity.
Qed.

Lemma single_shot_second_fetch_fails_witness :
  ret (unit_enviii_temp_humidity_measure SHT3X_HIGH (world 0 frame_zero) fresh)
  = ESP_OK /\
  ret (unit_enviii_temp_humidity_get (world 20000 frame_zero) started)
  = ESP_OK /\
  ret (unit_enviii_temp_humidity_get (world 40000 frame_zero)
         (after (unit_enviii_temp_humidity_get (world 20000 frame_zero) started)))
  = ESP_ERR_INVALID_STATE.
Proof.
  assert (Hm : ret (unit_enviii_temp_humidity_measure SHT3X_HIGH
                      (world 0 frame_zero) fresh) = ESP_OK)
    by (vm_compute; reflexivity).
  assert (Hf : ret (unit_enviii_temp_humidity_get (world 20000 frame_zero)
                      started) = ESP_OK)
    by (vm_compute; reflexivity).
  split; [exact Hm | split; [exact Hf |]].
  exact (proj1 (proj2 (proj2 (proj2
    (single_shot_second_fetch_fails SHT3X_HIGH (world 0 frame_zero)
       (world 20000 frame_zero) (world 40000 frame_zero) fresh Hm Hf))))).
Defined.

(** C3: with [meas_started] and [meas_first] both set, a fetch made
    while the elapsed time is below the duration-table entry of the
    session's repeatability (15000 microseconds for high repeatability)
    fails with [ESP_ERR_INVALID_STATE] and the still-running diagnostic,
    without a bus read; with [meas_first] clear the elapsed time is not
    looked at and the fetch goes on to the bus read. *)
Theorem first_fetch_waits_for_duration (w : env) (s : state) :
  meas_started (_dev s) = true ->
  let r := unit_enviii_temp_humidity_get w s in
  (meas_first (_dev s) = true ->
   elapsed w (_dev s) < duration_us (repeatability (_dev s)) ->
   ret r = ESP_ERR_INVALID_STATE /\
   out r = (None, None) /\
   _dev (after r) = _dev s /\
   trace (after r)
   = trace s ++ [EvLog LOG_ERROR _TAG "Measurement is still running"]) /\
  (meas_first (_dev s) = false ->
   is_measuring w (_dev s) = false /\
   exists rest,
     trace (after r)
     = trace s ++ EvI2cRead fetch_sent sizeof_sht3x_raw_data_t :: rest) /\
  duration_us SHT3X_HIGH = 15000.
Proof.
  intros Hst r. subst r. split; [| split].
  - intros Hfirst Hel.
    assert (Hm : is_measuring w (_dev s) = true).
    { unfold is_measuring. rewrite Hst, Hfirst. cbn [negb orb].
      now apply Z.ltb_lt. }
    rewrite (fetch_still_measuring w s Hst Hm).
    split; [| split; [| split]]; reflexivity.
  - intros Hfirst.
    assert (Hm : is_measuring w (_dev s) = false).
    { unfold is_measuring. rewrite Hst, Hfirst. reflexivity. }
    split; [exact Hm |].
    destruct (Z.eq_dec (fst (read_reply w)) ESP_OK) as [H3 | H3].
    + exact (proj2 (fetch_read_ok_after w s Hst Hm H3)).
    + rewrite (fetch_read_failed w s Hst Hm H3). exists []. reflexivity.
  - reflexivity.
Qed.

Lemma first_fetch_waits_for_duration_witness :
  (meas_started (_dev started) = true /\
   meas_first (_dev started) = true /\
   elapsed (world 14999 frame_zero) (_dev started)
   < duration_us (repeatability (_dev started)) /\
   ret (unit_enviii_temp_humidity_get (world 14999 frame_zero) started)
   = ESP_ERR_INVALID_STATE) /\
  (meas_started (_dev periodic_running) = true /\
   meas_first (_dev periodic_running) = false /\
   is_measuring (world 0 frame_zero) (_dev periodic_running) = false).
Proof.
  assert (S1 : meas_started (_dev started) = true) by reflexivity.
  assert (F1 : meas_first (_dev started) = true) by reflexivity.
  assert (E1 : elapsed (world 14999 frame_zero) (_dev started)
               < duration_us (repeatability (_dev started)))
    by (vm_compute; reflexivity).
  assert (S2 : meas_started (_dev periodic_running) = true) by reflexivity.
  assert (F2 : meas_first (_dev periodic_running) = false) by reflexivity.
  split.
  - split; [exact S1 | split; [exact F1 | split; [exact E1 |]]].
    exact (proj1 (proj1
      (first_fetch_waits_for_duration (world 14999 frame_zero) started S1)
      F1 E1)).
  - split; [exact S2 | split; [exact F2 |]].
    exact (proj1 (proj1 (proj2
      (first_fetch_waits_for_duration (world 0 frame_zero) periodic_running S2))
      F2)).
Defined.

(** C4: on every byte sequence [crc8] is the reference CRC-8 (register
    0xFF, each byte XORed in, then eight shifts with 0x31 XORed in when
    the bit shifted out was set); the all-zero two-byte payload has
    checksum 0x81, and the data sheet's vector 0xBEEF has 0x92. *)
Theorem crc8_matches_reference :
  (forall data : list byte,
     crc8 data (Z.of_nat (List.length data)) = crc8_ref data) /\
  crc8 [x00; x00] 2 = 0x81 /\
  crc8 [xbe; xef] 2 = 0x92.
Proof.
  split; [exact crc8_is_ref |].
  split; vm_compute; reflexivity.
Qed.

(** C5: the temperature checksum is looked at first.  For every frame
    whose temperature checksum is wrong, a fetch that got this frame
    returns [ESP_ERR_INVALID_CRC] with the temperature diagnostic and
    nothing else: the result does not depend on the humidity bytes, and
    no humidity diagnostic is traced whether or not they match. *)
Theorem temperature_crc_checked_first (w : env) (s : state) :
  meas_started (_dev s) = true ->
  is_measuring w (_dev s) = false ->
  fst (read_reply w) = ESP_OK ->
  let frame := snd (read_reply w) in
  crc8_ref [raw0 frame; raw1 frame] <> byte_val (raw2 frame) ->
  let r := unit_enviii_temp_humidity_get w s in
  ret r = ESP_ERR_INVALID_CRC /\
  out r = (None, None) /\
  trace (after r)
  = trace s ++ [EvI2cRead fetch_sent sizeof_sht3x_raw_data_t;
                EvLog LOG_ERROR _TAG "CRC check for temperature data failed"].
Proof.
  intros H1 H2 H3 frame Hcrc r. subst r.
  rewrite (fetch_read_ok w s H1 H2 H3). cbv zeta. fold frame.
  rewrite crc8_temperature.
  change (raw_at frame 2) with (byte_val (raw2 frame)).
  destruct (Z.eqb_spec (crc8_ref [raw0 frame; raw1 frame])
                       (byte_val (raw2 frame))) as [E | _];
    [contradiction |].
  cbn [negb ret out after].
  split; [reflexivity | split; [reflexivity |]].
  cbn [ESP_LOGE emit trace]. rewrite consumed_trace, <- app_assoc.
  reflexivity.
Qed.

Lemma temperature_crc_checked_first_witness :
  (crc8_ref [raw0 frame_bad_temp; raw1 frame_bad_temp]
   <> byte_val (raw2 frame_bad_temp) /\
   ret (unit_enviii_temp_humidity_get (world 20000 frame_bad_temp) started)
   = ESP_ERR_INVALID_CRC) /\
  trace (after (unit_enviii_temp_humidity_get (world 20000 frame_bad_both) started))
  = trace started
    ++ [EvI2cRead fetch_sent sizeof_sht3x_raw_data_t;
        EvLog LOG_ERROR _TAG "CRC check for temperature data failed"].
Proof.
  assert (S1 : meas_started (_dev started) = true) by reflexivity.
  assert (M1 : forall f, is_measuring (world 20000 f) (_dev started) = false)
    by (intros f; vm_compute; reflexivity).
  assert (C1 : crc8_ref [raw0 frame_bad_temp; raw1 frame_bad_temp]
               <> byte_val (raw2 frame_bad_temp))
    by (vm_compute; discriminate).
  assert (C2 : crc8_ref [raw0 frame_bad_both; raw1 frame_bad_both]
               <> byte_val (raw2 frame_bad_both))
    by (vm_compute; discriminate).
  split; [split; [exact C1 |] |].
  - exact (proj1
      (temperature_crc_checked_first (world 20000 frame_bad_temp) started
         S1 (M1 _) eq_refl C1)).
  - exact (proj2 (proj2
      (temperature_crc_checked_first (world 20000 frame_bad_both) started
         S1 (M1 _) eq_refl C2))).
Defined.

(** C6: a fetch that passed its preconditions and got its frame has
    cleared [meas_first], and in single-shot mode [meas_started] too,
    whatever the checksums say; so in single-shot mode the fetch after
    one that failed with [ESP_ERR_INVALID_CRC] fails with
    [ESP_ERR_INVALID_STATE] and the not-started diagnostic, without a
    bus read. *)
Theorem crc_failure_consumes_measurement (w w' : env) (s : state) :
  meas_started (_dev s) = true ->
  is_measuring w (_dev s) = false ->
  fst (read_reply w) = ESP_OK ->
  let r := unit_enviii_temp_humidity_get w s in
  let r' := unit_enviii_temp_humidity_get w' (after r) in
  meas_first (_dev (after r)) = false /\
  (mode (_dev s) = SHT3X_SINGLE_SHOT ->
   meas_started (_dev (after r)) = false /\
   (ret r = ESP_ERR_INVALID_CRC ->
    ret r' = ESP_ERR_INVALID_STATE /\
    out r' = (None, None) /\
    trace (after r')
    = trace (after r) ++ [EvLog LOG_ERROR _TAG "Measurement is not started"])) /\
  (mode (_dev s) <> SHT3X_SINGLE_SHOT ->
   meas_started (_dev (after r)) = true).
Proof.
  intros H1 H2 H3 r r'.
  destruct (fetch_read_ok_after w s H1 H2 H3) as [Hdev _]. fold r in Hdev.
  split; [| split].
  - rewrite Hdev. apply consumed_meas_first.
  - intros Hmode.
    assert (Hoff : meas_started (_dev (after r)) = false).
    { rewrite Hdev. now apply consumed_single_shot. }
    split; [exact Hoff |]. intros _.
    subst r'. rewrite (fetch_not_started w' (after r) Hoff).
    split; [| split]; reflexivity.
  - intros Hmode. rewrite Hdev, (consumed_periodic s Hmode). exact H1.
Qed.

Lemma crc_failure_consumes_measurement_witness :
  ret (unit_enviii_temp_humidity_get (world 20000 frame_bad_temp) started)
  = ESP_ERR_INVALID_CRC /\
  ret (unit_enviii_temp_humidity_get (world 40000 frame_zero)
         (after (unit_enviii_temp_humidity_get (world 20000 frame_bad_temp) started)))
  = ESP_ERR_INVALID_STATE.
Proof.
  assert (S1 : meas_started (_dev started) = true) by reflexivity.
  assert (M1 : is_measuring (world 20000 frame_bad_temp) (_dev started) = false)
    by (vm_compute; reflexivity).
  assert (R1 : ret (unit_enviii_temp_humidity_get
                      (world 20000 frame_bad_temp) started)
               = ESP_ERR_INVALID_CRC)
    by (vm_compute; reflexivity).
  split; [exact R1 |].
  exact (proj1 (proj2 (proj1 (proj2
    (crc_failure_consumes_measurement (world 20000 frame_bad_temp)
       (world 40000 frame_zero) started S1 M1 eq_refl)) eq_refl) R1)).
Defined.

(** C7: [unit_enviii_duration_get] writes 15 for high, 6 for medium and
    4 for low repeatability, returns [ESP_OK] and leaves the session and
    the trace as they were, in every state. *)
Theorem duration_get_table (s : state) :
  unit_enviii_duration_get SHT3X_HIGH s = mk_result ESP_OK (Some 15) s /\
  unit_enviii_duration_get SHT3X_MEDIUM s = mk_result ESP_OK (Some 6) s /\
  unit_enviii_duration_get SHT3X_LOW s = mk_result ESP_OK (Some 4) s.
Proof.
  split; [| split]; reflexivity.
Qed.

(** The shipped configuration asks for 15. *)
Lemma duration_get_shipped (s : state) :
  out (unit_enviii_duration_get shipped_REPEATABILITY_MODE s) = Some 15.
Proof. reflexivity. Qed.

(** ** unit_enviii_init *)

Lemma duration_get_result (r : sht3x_repeat_t) (s : state) :
  unit_enviii_duration_get r s
  = mk_result ESP_OK (Some (sht3x_get_measurement_duration r)) s.
Proof. destruct r; reflexivity. Qed.

(** [unit_enviii_init], exactly.  It returns only [ESP_OK], with the
    wait duration of the duration table written through its
    out-parameter, and it returns only when both library calls
    succeeded or the build has [NDEBUG]; otherwise, that is when
    [sht3x_init_desc] or [sht3x_init] fails in a build without
    [NDEBUG], [ESP_ERROR_CHECK] aborts the program. *)
Lemma init_returns_only_success
    (r : sht3x_repeat_t) (ndebug : bool) (w : env) (s : state) :
  match unit_enviii_init r ndebug w s with
  | Returned res =>
      ret res = ESP_OK /\
      out res = Some (sht3x_get_measurement_duration r) /\
      (ndebug = true \/
       (init_desc_reply w = ESP_OK /\ init_reply w = ESP_OK))
  | Aborted _ =>
      ndebug = false /\
      (init_desc_reply w <> ESP_OK \/ init_reply w <> ESP_OK)
  end.
Proof.
  unfold unit_enviii_init, sht3x_init_desc, sht3x_init, ESP_ERROR_CHECK.
  cbv zeta. rewrite !duration_get_result.
  destruct ndebug.
  - split; [reflexivity | split; [reflexivity | left; reflexivity]].
  - destruct (Z.eqb_spec (init_desc_reply w) ESP_OK) as [E1 | E1]; cbn [negb].
    + destruct (Z.eqb_spec (init_reply w) ESP_OK) as [E2 | E2]; cbn [negb].
      * split; [reflexivity | split; [reflexivity | right; split; assumption]].
      * split; [reflexivity | right; exact E2].
    + split; [reflexivity | left; exact E1].
Qed.

(** A failure in a build without [NDEBUG] aborts. *)
Lemma init_failure_aborts (r : sht3x_repeat_t) (w : env) (s : state) :
  init_desc_reply w <> ESP_OK \/ init_reply w <> ESP_OK ->
  exists s', unit_enviii_init r false w s = Aborted s'.
Proof.
  intros Hfail.
  pose proof (init_returns_only_success r false w s) as H.
  destruct (unit_enviii_init r false w s) as [res | s'].
  - destruct H as (_ & _ & [N | [E1 E2]]); [discriminate N |].
    destruct Hfail; contradiction.
  - exists s'. reflexivity.
Qed.

(** C8: [unit_enviii_init] does not return the failures it meets.  With
    the transport refusing to open ([sht3x_init_desc] answers
    [ESP_FAIL]), or the sensor not acknowledging ([sht3x_init] answers
    [ESP_FAIL]), the shipped build aborts in [ESP_ERROR_CHECK], and with
    [NDEBUG] it goes on and returns [ESP_OK]; in neither build does the
    caller get an error code, though the header documents an error
    return and the earlier revision and the fetch path hand theirs
    back. *)
Lemma init_failure_is_not_returned :
  let no_transport := mk_env 0 ESP_FAIL ESP_OK ESP_OK (ESP_OK, frame_zero) in
  let no_ack := mk_env 0 ESP_OK ESP_FAIL ESP_OK (ESP_OK, frame_zero) in
  let returns_error (ndebug : bool) (w : env) :=
    exists res,
      unit_enviii_init shipped_REPEATABILITY_MODE ndebug w fresh = Returned res
      /\ ret res <> ESP_OK in
  init_desc_reply no_transport <> ESP_OK /\
  init_reply no_ack <> ESP_OK /\
  ~ returns_error false no_transport /\
  ~ returns_error false no_ack /\
  ~ returns_error true no_transport /\
  ~ returns_error true no_ack /\
  (exists s,
     unit_enviii_init shipped_REPEATABILITY_MODE false no_transport fresh
     = Aborted s) /\
  (exists s,
     unit_enviii_init shipped_REPEATABILITY_MODE false no_ack fresh
     = Aborted s).
Proof.
  cbv zeta.
  split; [discriminate |]. split; [discriminate |].
  split; [intros (res & H & _); vm_compute in H; discriminate H |].
  split; [intros (res & H & _); vm_compute in H; discriminate H |].
  split.
  { intros (res & H & Hret). vm_compute in H. injection H as <-.
    apply Hret. reflexivity. }
  split.
  { intros (res & H & Hret). vm_compute in H. injection H as <-.
    apply Hret. reflexivity. }
  split; eexists; vm_compute; reflexivity.
Qed.

(** With both collaborators succeeding the call returns. *)
Lemma init_success (r : sht3x_repeat_t) (ndebug : bool) (w : env) (s : state) :
  init_desc_reply w = ESP_OK ->
  init_reply w = ESP_OK ->
  exists res,
    unit_enviii_init r ndebug w s = Returned res /\
    ret res = ESP_OK /\
    out res = Some (sht3x_get_measurement_duration r) /\
    meas_started (_dev (after res)) = false.
Proof.
  intros E1 E2.
  unfold unit_enviii_init, sht3x_init_desc, sht3x_init, ESP_ERROR_CHECK.
  cbv zeta. rewrite !duration_get_result, E1, E2.
  destruct ndebug; eexists; (split; [reflexivity |]);
    (split; [reflexivity | split; reflexivity]).
Qed.

(** Whenever the call returns, no measurement is started. *)
Lemma init_leaves_not_started
    (r : sht3x_repeat_t) (ndebug : bool) (w : env) (s : state)
    (res : result (option Z)) :
  unit_enviii_init r ndebug w s = Returned res ->
  meas_started (_dev (after res)) = false.
Proof.
  unfold unit_enviii_init, sht3x_init_desc, sht3x_init, ESP_ERROR_CHECK.
  cbv zeta. rewrite !duration_get_result.
  destruct ndebug.
  - intros H. injection H as <-. reflexivity.
  - destruct (negb (init_desc_reply w =? ESP_OK)); [discriminate |].
    destruct (negb (init_reply w =? ESP_OK)); [discriminate |].
    intros H. injection H as <-. reflexivity.
Qed.

(** ** The fetch command *)

Lemma shuffle_bytes (hi lo : byte) :
  shuffle (256 * byte_val hi + byte_val lo) = 256 * byte_val lo + byte_val hi.
Proof.
  pose proof (byte_val_range hi) as Hh. pose proof (byte_val_range lo) as Hl.
  rewrite shuffle_swaps by (change (2 ^ 16) with 65536; lia).
  replace ((256 * byte_val hi + byte_val lo) mod 256) with (byte_val lo).
  2:{ rewrite Z.add_comm, Z.mul_comm, Z.mod_add by lia.
      symmetry. apply Z.mod_small. lia. }
  replace ((256 * byte_val hi + byte_val lo) / 256) with (byte_val hi).
  2:{ rewrite Z.add_comm, Z.mul_comm, Z.div_add by lia.
      rewrite Z.div_small by lia. reflexivity. }
  lia.
Qed.

(** Every fetch that passes its preconditions hands the bus exactly the
    byte 0xE0 to send. *)
Lemma fetch_sends_one_byte (w : env) (s : state) :
  meas_started (_dev s) = true ->
  is_measuring w (_dev s) = false ->
  exists rest,
    trace (after (unit_enviii_temp_humidity_get w s))
    = trace s ++ EvI2cRead [xe0] sizeof_sht3x_raw_data_t :: rest.
Proof.
  intros H1 H2.
  destruct (Z.eq_dec (fst (read_reply w)) ESP_OK) as [H3 | H3].
  - exact (proj2 (fetch_read_ok_after w s H1 H2 H3)).
  - rewrite (fetch_read_failed w s H1 H2 H3). exists []. reflexivity.
Qed.

(** C9: [shuffle] exchanges the two bytes of every 16-bit value and
    turns the fetch command 0xE000 into 0x00E0, whose bytes in memory
    are 0xE0, 0x00; the fetch hands this word to the bus read with a
    send size of one, so the byte 0xE0 alone goes out. *)
Theorem fetch_command_on_the_wire :
  (forall hi lo : byte,
     shuffle (256 * byte_val hi + byte_val lo)
     = 256 * byte_val lo + byte_val hi) /\
  shuffle SHT3X_FETCH_DATA_CMD = 0x00E0 /\
  uint16_bytes (shuffle SHT3X_FETCH_DATA_CMD) = [xe0; x00] /\
  trace (after (unit_enviii_temp_humidity_get (world 20000 frame_zero) started))
  = trace started ++ [EvI2cRead [xe0] sizeof_sht3x_raw_data_t].
Proof.
  split; [exact shuffle_bytes |].
  split; [vm_compute; reflexivity |].
  split; vm_compute; reflexivity.
Qed.

(** C10: [unit_enviii_pressure_get] and [unit_enviii_altitude_get]
    return [ESP_OK] in every state, write nothing through their
    out-parameter and leave the session and the trace as they were. *)
Theorem pressure_altitude_stubs (s : state) :
  unit_enviii_pressure_get s = mk_result ESP_OK None s /\
  unit_enviii_altitude_get s = mk_result ESP_OK None s.
Proof.
  split; reflexivity.
Qed.

(** * Further properties of the arithmetic *)

Lemma all_below_spec (n : nat) (P : Z -> bool) :
  all_below n P = true ->
  forall x : Z, 0 <= x < Z.of_nat n -> P x = true.
Proof.
  induction n as [| n IH]; intros H x Hx.
  - lia.
  - cbn [all_below] in H. apply andb_prop in H as [Hn Hrest].
    destruct (Z.eq_dec x (Z.of_nat n)) as [-> | Hne].
    + exact Hn.
    + apply IH; [exact Hrest | lia].
Qed.

Lemma byte_val_inj (a b : byte) : byte_val a = byte_val b -> a = b.
Proof.
  unfold byte_val. intros H. apply N2Z.inj in H.
  pose proof (Byte.of_to_N a) as Ha. pose proof (Byte.of_to_N b) as Hb.
  rewrite H in Ha. congruence.
Qed.

Lemma lxor_cancel_r (a b c : Z) : Z.lxor a c = Z.lxor b c -> a = b.
Proof.
  intros H.
  assert (Ha : a = Z.lxor (Z.lxor a c) c)
    by (rewrite Z.lxor_assoc, Z.lxor_nilpotent, Z.lxor_0_r; reflexivity).
  assert (Hb : b = Z.lxor (Z.lxor b c) c)
    by (rewrite Z.lxor_assoc, Z.lxor_nilpotent, Z.lxor_0_r; reflexivity).
  rewrite Ha, Hb, H. reflexivity.
Qed.

Lemma lxor_cancel_l (a b c : Z) : Z.lxor c a = Z.lxor c b -> a = b.
Proof.
  rewrite (Z.lxor_comm c a), (Z.lxor_comm c b). apply lxor_cancel_r.
Qed.

(** One shift of the register loses nothing: the low bit of the result
    tells whether the polynomial was XORed in.  Decided by running
    through all pairs of register values. *)
Lemma crc8_ref_shift_inj (x y : Z) :
  0 <= x < 256 -> 0 <= y < 256 ->
  crc8_ref_shift x = crc8_ref_shift y -> x = y.
Proof.
  intros Hx Hy E.
  assert (T : all_below 256 (fun a => all_below 256 (fun b =>
                implb (crc8_ref_shift a =? crc8_ref_shift b) (a =? b))) = true)
    by (vm_compute; reflexivity).
  pose proof (all_below_spec 256 _ T x Hx) as Tx. cbv beta in Tx.
  pose proof (all_below_spec 256 _ Tx y Hy) as Txy. cbv beta in Txy.
  rewrite E, Z.eqb_refl in Txy. cbn [implb] in Txy.
  now apply Z.eqb_eq.
Qed.

Lemma crc8_ref_shifts_inj (k : nat) (x y : Z) :
  0 <= x < 256 -> 0 <= y < 256 ->
  Nat.iter k crc8_ref_shift x = Nat.iter k crc8_ref_shift y -> x = y.
Proof.
  intros Hx Hy. induction k as [| k IH]; cbn [Nat.iter nat_rect]; intros E.
  - exact E.
  - apply IH.
    apply crc8_ref_shift_inj;
      [apply (crc8_rounds_ref k 0 x Hx) | apply (crc8_rounds_ref k 0 y Hy) | exact E].
Qed.

Lemma crc8_ref_byte_inj_reg (r r' : Z) (b : byte) :
  0 <= r < 256 -> 0 <= r' < 256 ->
  crc8_ref_byte r b = crc8_ref_byte r' b -> r = r'.
Proof.
  intros Hr Hr' E. unfold crc8_ref_byte in E.
  apply crc8_ref_shifts_inj in E;
    [| apply lxor_byte_range; [assumption | apply byte_val_range] ..].
  now apply lxor_cancel_r in E.
Qed.

Lemma crc8_ref_byte_inj_byte (r : Z) (b b' : byte) :
  0 <= r < 256 ->
  crc8_ref_byte r b = crc8_ref_byte r b' -> b = b'.
Proof.
  intros Hr E. unfold crc8_ref_byte in E.
  apply crc8_ref_shifts_inj in E;
    [| apply lxor_byte_range; [assumption | apply byte_val_range] ..].
  apply lxor_cancel_l in E. now apply byte_val_inj.
Qed.

Lemma crc8_ref_pair (a b : byte) :
  crc8_ref [a; b] = crc8_ref_byte (crc8_ref_byte 0xFF a) b.
Proof. unfold crc8_ref. cbn [fold_left]. reflexivity. Qed.

(** In the reference checksum of two bytes, changing one byte changes
    the checksum. *)
Lemma crc8_ref_pair_inj (a b a' b' : byte) :
  crc8_ref [a; b] = crc8_ref [a'; b'] -> (a = a' <-> b = b').
Proof.
  rewrite !crc8_ref_pair. intros E.
  assert (H0 : 0 <= 0xFF < 256) by lia.
  pose proof (crc8_ref_byte_range 0xFF a H0) as Ra.
  pose proof (crc8_ref_byte_range 0xFF a' H0) as Ra'.
  split.
  - intros <-. now apply crc8_ref_byte_inj_byte in E.
  - intros <-. apply crc8_ref_byte_inj_reg in E; [| assumption ..].
    now apply crc8_ref_byte_inj_byte in E.
Qed.

Lemma crc8_pair (a b : byte) : crc8 [a; b] 2 = crc8_ref [a; b].
Proof. exact (crc8_is_ref [a; b]). Qed.

(** X1: [crc8] called with a length of zero or less reads nothing and
    returns the initial value 0xFF, whatever the array holds. *)
Theorem crc8_no_bytes (data : list byte) (len : Z) :
  len <= 0 -> crc8 data len = 0xff.
Proof.
  intros H. unfold crc8. cbv zeta.
  destruct len as [| p | p]; [reflexivity | lia | reflexivity].
Qed.

Lemma crc8_no_bytes_witness :
  -1 <= 0 /\ crc8 [xbe; xef] (-1) = 0xff.
Proof.
  split; [lia |]. apply (crc8_no_bytes [xbe; xef] (-1)). lia.
Defined.

(** X2: the checksum [crc8] returns is a byte and depends only on the
    bytes it is asked to cover: what follows them in the array does not
    matter. *)
Theorem crc8_covers_its_prefix (data post post' : list byte) :
  0 <= crc8 (data ++ post) (Z.of_nat (List.length data)) < 256 /\
  crc8 (data ++ post) (Z.of_nat (List.length data))
  = crc8 (data ++ post') (Z.of_nat (List.length data)).
Proof.
  split; [apply crc8_range |].
  rewrite !crc8_prefix_ref. reflexivity.
Qed.

(** X3: over a two-byte field, a change of exactly one byte always
    changes the checksum [crc8] computes. *)
Theorem crc8_detects_one_changed_byte (a b a' b' : byte) :
  (a <> a' -> crc8 [a; b] 2 <> crc8 [a'; b] 2) /\
  (b <> b' -> crc8 [a; b] 2 <> crc8 [a; b'] 2).
Proof.
  rewrite !crc8_pair. split; intros Hne E.
  - apply crc8_ref_pair_inj in E. apply Hne, E. reflexivity.
  - apply crc8_ref_pair_inj in E. apply Hne, E. reflexivity.
Qed.

Lemma crc8_detects_one_changed_byte_witness :
  x00 <> x01 /\
  crc8 [x00; x00] 2 <> crc8 [x01; x00] 2 /\
  crc8 [x00; x00] 2 <> crc8 [x00; x01] 2.
Proof.
  assert (N : x00 <> x01) by discriminate.
  split; [exact N |]. split.
  - exact (proj1 (crc8_detects_one_changed_byte x00 x00 x01 x01) N).
  - exact (proj2 (crc8_detects_one_changed_byte x00 x00 x01 x01) N).
Defined.

(** X4: [shuffle] always yields a 16-bit value, and on 16-bit values it
    is its own inverse. *)
Theorem shuffle_involution (v : Z) :
  0 <= shuffle v < 2 ^ 16 /\
  (0 <= v < 2 ^ 16 -> shuffle (shuffle v) = v).
Proof.
  split.
  - unfold shuffle, u16. apply Z.mod_pos_bound. lia.
  - intros Hv. change (2 ^ 16) with 65536 in Hv.
    assert (Hq : 0 <= v / 256 < 256).
    { split; [apply Z.div_pos; lia | apply Z.div_lt_upper_bound; lia]. }
    pose proof (Z.mod_pos_bound v 256 ltac:(lia)) as Hr.
    pose proof (Z.div_mod v 256 ltac:(lia)) as D.
    rewrite (shuffle_swaps v) by (change (2 ^ 16) with 65536; lia).
    rewrite shuffle_swaps by (change (2 ^ 16) with 65536; lia).
    replace ((v mod 256 * 256 + v / 256) mod 256) with (v / 256).
    2:{ rewrite Z.add_comm, Z.mod_add by lia. symmetry. apply Z.mod_small. lia. }
    replace ((v mod 256 * 256 + v / 256) / 256) with (v mod 256).
    2:{ rewrite Z.add_comm, Z.div_add by lia.
        rewrite Z.div_small by lia. reflexivity. }
    lia.
Qed.

Lemma shuffle_involution_witness :
  0 <= 0xE000 < 2 ^ 16 /\ shuffle (shuffle 0xE000) = 0xE000.
Proof.
  assert (H : 0 <= 0xE000 < 2 ^ 16) by (change (2 ^ 16) with 65536; lia).
  split; [exact H |].
  exact (proj2 (shuffle_involution 0xE000) H).
Defined.

(** * Further properties of the fetch *)

Lemma bus_reads_app (t u : list event) :
  bus_reads (t ++ u) = (bus_reads t + bus_reads u)%nat.
Proof.
  induction t as [| e t IH]; [reflexivity |].
  destruct e; cbn [app bus_reads]; rewrite IH; reflexivity.
Qed.

(** The session after [consumed], field by field. *)
Lemma consumed_dev (s : state) :
  _dev (consumed s)
  = mk_sht3x (i2c_dev (_dev s)) (mode (_dev s)) (repeatability (_dev s))
             (if sht3x_mode_eqb (mode (_dev s)) SHT3X_SINGLE_SHOT
              then false else meas_started (_dev s))
             (meas_start_time (_dev s)) false.
Proof.
  unfold consumed. cbn.
  destruct (sht3x_mode_eqb (mode (_dev s)) SHT3X_SINGLE_SHOT); reflexivity.
Qed.

(** The four ways a fetch can go, by what it leaves in the session and
    in the trace. *)
Lemma fetch_cases (w : env) (s : state) :
  let r := unit_enviii_temp_humidity_get w s in
  (meas_started (_dev s) && negb (is_measuring w (_dev s)) = false /\
   _dev (after r) = _dev s /\
   exists msg, trace (after r) = trace s ++ [EvLog LOG_ERROR _TAG msg]) \/
  (meas_started (_dev s) && negb (is_measuring w (_dev s)) = true /\
   fst (read_reply w) <> ESP_OK /\
   _dev (after r) = _dev s /\
   trace (after r)
   = trace s ++ [EvI2cRead fetch_sent sizeof_sht3x_raw_data_t]) \/
  (meas_started (_dev s) && negb (is_measuring w (_dev s)) = true /\
   fst (read_reply w) = ESP_OK /\
   _dev (after r) = _dev (consumed s) /\
   (trace (after r)
    = trace s ++ [EvI2cRead fetch_sent sizeof_sht3x_raw_data_t] \/
    exists msg,
      trace (after r)
      = trace s ++ [EvI2cRead fetch_sent sizeof_sht3x_raw_data_t;
                    EvLog LOG_ERROR _TAG msg])).
Proof.
  intros r. subst r.
  destruct (meas_started (_dev s)) eqn:H1.
  2:{ left. rewrite (fetch_not_started w s H1).
      split; [reflexivity | split; [reflexivity |]]. eexists. reflexivity. }
  destruct (is_measuring w (_dev s)) eqn:H2.
  1:{ left. rewrite (fetch_still_measuring w s H1 H2).
      split; [reflexivity | split; [reflexivity |]]. eexists. reflexivity. }
  right.
  destruct (Z.eq_dec (fst (read_reply w)) ESP_OK) as [H3 | H3].
  - right. rewrite (fetch_read_ok w s H1 H2 H3). cbv zeta.
    split; [reflexivity | split; [exact H3 |]].
    destruct (negb (crc8 _ 2 =? _)); [| destruct (negb (crc8 _ 2 =? _))];
      (split; [reflexivity |]); cbn [after ESP_LOGE emit trace];
      rewrite consumed_trace, <- ?app_assoc.
    + right. eexists. reflexivity.
    + right. eexists. reflexivity.
    + left. reflexivity.
  - left. rewrite (fetch_read_failed w s H1 H2 H3).
    split; [reflexivity | split; [exact H3 | split; reflexivity]].
Qed.

(** X5: with the temperature checksum right and the humidity checksum
    wrong, a fetch that got its frame returns [ESP_ERR_INVALID_CRC] with
    the humidity diagnostic and writes nothing through its
    out-parameters. *)
Theorem humidity_crc_failure (w : env) (s : state) :
  meas_started (_dev s) = true ->
  is_measuring w (_dev s) = false ->
  fst (read_reply w) = ESP_OK ->
  let frame := snd (read_reply w) in
  crc8_ref [raw0 frame; raw1 frame] = byte_val (raw2 frame) ->
  crc8_ref [raw3 frame; raw4 frame] <> byte_val (raw5 frame) ->
  let r := unit_enviii_temp_humidity_get w s in
  ret r = ESP_ERR_INVALID_CRC /\
  out r = (None, None) /\
  trace (after r)
  = trace s ++ [EvI2cRead fetch_sent sizeof_sht3x_raw_data_t;
                EvLog LOG_ERROR _TAG "CRC check for humidity data failed"].
Proof.
  intros H1 H2 H3 frame Ht Hh r. subst r.
  rewrite (fetch_read_ok w s H1 H2 H3). cbv zeta. fold frame.
  rewrite crc8_temperature, crc8_humidity.
  change (raw_at frame 2) with (byte_val (raw2 frame)).
  change (raw_at frame 5) with (byte_val (raw5 frame)).
  rewrite Ht, Z.eqb_refl. cbn [negb].
  destruct (Z.eqb_spec (crc8_ref [raw3 frame; raw4 frame])
                       (byte_val (raw5 frame))) as [E | _];
    [contradiction |].
  cbn [negb ret out after].
  split; [reflexivity | split; [reflexivity |]].
  cbn [ESP_LOGE emit trace]. rewrite consumed_trace, <- app_assoc.
  reflexivity.
Qed.

Lemma humidity_crc_failure_witness :
  crc8_ref [raw3 frame_bad_hum; raw4 frame_bad_hum]
  <> byte_val (raw5 frame_bad_hum) /\
  ret (unit_enviii_temp_humidity_get (world 20000 frame_bad_hum) started)
  = ESP_ERR_INVALID_CRC.
Proof.
  assert (S1 : meas_started (_dev started) = true) by reflexivity.
  assert (M1 : is_measuring (world 20000 frame_bad_hum) (_dev started) = false)
    by (vm_compute; reflexivity).
  assert (T1 : crc8_ref [raw0 frame_bad_hum; raw1 frame_bad_hum]
               = byte_val (raw2 frame_bad_hum))
    by (vm_compute; reflexivity).
  assert (N1 : crc8_ref [raw3 frame_bad_hum; raw4 frame_bad_hum]
               <> byte_val (raw5 frame_bad_hum))
    by (vm_compute; discriminate).
  split; [exact N1 |].
  exact (proj1
    (humidity_crc_failure (world 20000 frame_bad_hum) started
       S1 M1 eq_refl T1 N1)).
Defined.

(** X6: when the bus read fails, the fetch returns the transport's code
    unchanged, writes nothing, and leaves the session as it was: the
    flags are not cleared, so the same measurement can be fetched
    again. *)
Theorem bus_failure_is_passed_on (w : env) (s : state) :
  meas_started (_dev s) = true ->
  is_measuring w (_dev s) = false ->
  fst (read_reply w) <> ESP_OK ->
  let r := unit_enviii_temp_humidity_get w s in
  ret r = fst (read_reply w) /\
  out r = (None, None) /\
  _dev (after r) = _dev s /\
  trace (after r)
  = trace s ++ [EvI2cRead fetch_sent sizeof_sht3x_raw_data_t].
Proof.
  intros H1 H2 H3 r. subst r. rewrite (fetch_read_failed w s H1 H2 H3).
  split; [| split; [| split]]; reflexivity.
Qed.

Lemma bus_failure_is_passed_on_witness :
  fst (read_reply (world_bus_down 20000)) <> ESP_OK /\
  ret (unit_enviii_temp_humidity_get (world_bus_down 20000) started) = ESP_FAIL /\
  _dev (after (unit_enviii_temp_humidity_get (world_bus_down 20000) started))
  = _dev started.
Proof.
  assert (S1 : meas_started (_dev started) = true) by reflexivity.
  assert (M1 : is_measuring (world_bus_down 20000) (_dev started) = false)
    by (vm_compute; reflexivity).
  assert (N1 : fst (read_reply (world_bus_down 20000)) <> ESP_OK)
    by discriminate.
  pose proof (bus_failure_is_passed_on (world_bus_down 20000) started S1 M1 N1)
    as (Hret & _ & Hdev & _).
  split; [exact N1 | split; [exact Hret | exact Hdev]].
Defined.

(** X7: a fetch returns [ESP_OK] exactly when the measurement is
    started, no longer running, the bus read succeeded and both
    checksums of the frame are right; it then writes the converted
    values and leaves the session consumed. *)
Theorem fetch_succeeds_exactly_when (w : env) (s : state) :
  let r := unit_enviii_temp_humidity_get w s in
  let ready :=
    meas_started (_dev s) = true /\
    is_measuring w (_dev s) = false /\
    fst (read_reply w) = ESP_OK /\
    frame_valid (snd (read_reply w)) in
  (ret r = ESP_OK <-> ready) /\
  (ready ->
   out r = snd (sht3x_compute_values (snd (read_reply w))) /\
   after r = consumed s).
Proof.
  intros r ready.
  assert (Fwd : ret r = ESP_OK -> ready).
  { intros Hok. destruct (fetch_ok_passed w s Hok) as (H1 & H2 & H3).
    split; [exact H1 | split; [exact H2 | split; [exact H3 |]]].
    subst r. rewrite (fetch_read_ok w s H1 H2 H3) in Hok. cbv zeta in Hok.
    rewrite crc8_temperature, crc8_humidity in Hok.
    unfold frame_valid.
    change (byte_val (raw2 (snd (read_reply w))))
      with (raw_at (snd (read_reply w)) 2).
    change (byte_val (raw5 (snd (read_reply w))))
      with (raw_at (snd (read_reply w)) 5).
    destruct (Z.eqb_spec (crc8_ref [raw0 (snd (read_reply w)); raw1 (snd (read_reply w))])
                         (raw_at (snd (read_reply w)) 2)) as [Et | _];
      [| discriminate Hok].
    destruct (Z.eqb_spec (crc8_ref [raw3 (snd (read_reply w)); raw4 (snd (read_reply w))])
                         (raw_at (snd (read_reply w)) 5)) as [Eh | _];
      [| discriminate Hok].
    split; assumption. }
  assert (Bwd : ready ->
                ret r = ESP_OK /\
                out r = snd (sht3x_compute_values (snd (read_reply w))) /\
                after r = consumed s).
  { intros (H1 & H2 & H3 & Ht & Hh).
    subst r. rewrite (fetch_read_ok w s H1 H2 H3). cbv zeta.
    rewrite crc8_temperature, crc8_humidity.
    change (raw_at (snd (read_reply w)) 2)
      with (byte_val (raw2 (snd (read_reply w)))).
    change (raw_at (snd (read_reply w)) 5)
      with (byte_val (raw5 (snd (read_reply w)))).
    rewrite Ht, Hh, !Z.eqb_refl. cbn [negb].
    split; [| split]; reflexivity. }
  split; [split; [exact Fwd | intros H; exact (proj1 (Bwd H))] |].
  intros H. exact (proj2 (Bwd H)).
Qed.

Lemma fetch_succeeds_exactly_when_witness :
  frame_valid frame_zero /\
  ret (unit_enviii_temp_humidity_get (world 20000 frame_zero) started) = ESP_OK /\
  ~ frame_valid frame_bad_hum.
Proof.
  assert (V : frame_valid frame_zero) by (split; vm_compute; reflexivity).
  assert (S1 : meas_started (_dev started) = true) by reflexivity.
  assert (M1 : forall f, is_measuring (world 20000 f) (_dev started) = false)
    by (intros f; vm_compute; reflexivity).
  split; [exact V | split].
  - apply (proj1 (fetch_succeeds_exactly_when (world 20000 frame_zero) started)).
    cbn [read_reply world fst snd].
    split; [exact S1 | split; [exact (M1 _) | split; [reflexivity | exact V]]].
  - intros [_ Hh]. vm_compute in Hh. discriminate Hh.
Defined.

(** X8: a fetch never touches the bus address, the mode, the
    repeatability or the start time of the session, and never sets a
    flag: [meas_started] and [meas_first] can only go from set to
    clear. *)
Theorem fetch_only_clears_flags (w : env) (s : state) :
  let d := _dev s in
  let d' := _dev (after (unit_enviii_temp_humidity_get w s)) in
  i2c_dev d' = i2c_dev d /\
  mode d' = mode d /\
  repeatability d' = repeatability d /\
  meas_start_time d' = meas_start_time d /\
  implb (meas_started d') (meas_started d) = true /\
  implb (meas_first d') (meas_first d) = true.
Proof.
  intros d d'. subst d d'.
  destruct (fetch_cases w s) as [(_ & Hd & _) | [(_ & _ & Hd & _) | (_ & _ & Hd & _)]];
    rewrite Hd.
  - repeat (split; [reflexivity |]).
    split; [destruct (meas_started (_dev s)) | destruct (meas_first (_dev s))];
      reflexivity.
  - repeat (split; [reflexivity |]).
    split; [destruct (meas_started (_dev s)) | destruct (meas_first (_dev s))];
      reflexivity.
  - rewrite consumed_dev. cbn [i2c_dev mode repeatability meas_start_time
                                meas_started meas_first].
    repeat (split; [reflexivity |]).
    split; [| reflexivity].
    destruct (sht3x_mode_eqb _ _); [reflexivity |].
    destruct (meas_started (_dev s)); reflexivity.
Qed.

(** X9: a fetch reads the bus once when the measurement is started and
    no longer running, and not at all otherwise. *)
Theorem fetch_reads_bus_once_when_due (w : env) (s : state) :
  bus_reads (trace (after (unit_enviii_temp_humidity_get w s)))
  = (bus_reads (trace s)
     + (if meas_started (_dev s) && negb (is_measuring w (_dev s))
        then 1 else 0))%nat.
Proof.
  destruct (fetch_cases w s)
    as [(Hc & _ & msg & Ht) | [(Hc & _ & _ & Ht) | (Hc & _ & _ & [Ht | [msg Ht]])]];
    rewrite Hc, Ht, bus_reads_app; reflexivity.
Qed.

(** X10: a timer value below the recorded start time wraps around in
    the unsigned subtraction to a huge elapsed time, so the measurement
    is taken to be over. *)
Theorem timer_before_start_counts_as_elapsed (w : env) (d : sht3x_t) :
  0 <= esp_timer_get_time w < meas_start_time d ->
  meas_start_time d < 2 ^ 63 ->
  2 ^ 63 < elapsed w d /\ is_measuring w d = false.
Proof.
  intros Hnow Hst.
  assert (P : 2 ^ 64 = 2 * 2 ^ 63) by reflexivity.
  assert (Q : 0 < 2 ^ 63) by reflexivity.
  assert (E : elapsed w d = esp_timer_get_time w - meas_start_time d + 2 ^ 64).
  { unfold elapsed, u64.
    rewrite <- (Z.mod_add _ 1) by lia. rewrite Z.mul_1_l.
    apply Z.mod_small. lia. }
  split; [lia |].
  unfold is_measuring.
  destruct (negb (meas_started d) || negb (meas_first d)); [reflexivity |].
  apply Z.ltb_ge.
  assert (B : duration_us (repeatability d) <= 15000)
    by (destruct (repeatability d); vm_compute; discriminate).
  assert (C : 15000 < 2 ^ 63) by reflexivity.
  lia.
Qed.

Lemma timer_before_start_counts_as_elapsed_witness :
  0 <= esp_timer_get_time (world 0 frame_zero)
     < meas_start_time (mk_sht3x (mk_i2c_dev 0) SHT3X_SINGLE_SHOT SHT3X_HIGH
                                 true 1000 true) /\
  is_measuring (world 0 frame_zero)
    (mk_sht3x (mk_i2c_dev 0) SHT3X_SINGLE_SHOT SHT3X_HIGH true 1000 true)
  = false.
Proof.
  assert (H1 : 0 <= esp_timer_get_time (world 0 frame_zero)
               < meas_start_time (mk_sht3x (mk_i2c_dev 0) SHT3X_SINGLE_SHOT
                                           SHT3X_HIGH true 1000 true))
    by (cbn; lia).
  split; [exact H1 |].
  refine (proj2 (timer_before_start_counts_as_elapsed _ _ H1 _)).
  reflexivity.
Defined.

(** What a start that did not go through leaves behind. *)
Lemma measure_failed (r : sht3x_repeat_t) (w : env) (s : state) :
  ret (unit_enviii_temp_humidity_measure r w s) <> ESP_OK ->
  let d := _dev (after (unit_enviii_temp_humidity_measure r w s)) in
  mode d = SHT3X_SINGLE_SHOT /\ meas_started d = meas_started (_dev s).
Proof.
  unfold unit_enviii_temp_humidity_measure, sht3x_start_measurement.
  cbv zeta.
  destruct (Z.eqb_spec (start_reply w) ESP_OK) as [E | E]; cbn.
  - intros H. contradiction.
  - intros _. split; reflexivity.
Qed.

(** X11: after a start that went through at time [t0], a fetch at a
    later time [t1] is refused as still running while [t1 - t0] is below
    the duration of the configured repeatability, and goes to the bus
    from then on. *)
Theorem fetch_after_start_timing
    (r : sht3x_repeat_t) (w0 w1 : env) (s : state) :
  let m := unit_enviii_temp_humidity_measure r w0 s in
  let f := unit_enviii_temp_humidity_get w1 (after m) in
  ret m = ESP_OK ->
  0 <= esp_timer_get_time w0 <= esp_timer_get_time w1 ->
  esp_timer_get_time w1 < 2 ^ 63 ->
  (esp_timer_get_time w1 - esp_timer_get_time w0 < duration_us r ->
   ret f = ESP_ERR_INVALID_STATE /\
   bus_reads (trace (after f)) = bus_reads (trace (after m))) /\
  (duration_us r <= esp_timer_get_time w1 - esp_timer_get_time w0 ->
   bus_reads (trace (after f)) = S (bus_reads (trace (after m)))).
Proof.
  intros m f Hm Ht Hmax.
  destruct (measure_ok r w0 s Hm) as (_ & Hrep & Hst & Hfirst & Htime).
  fold m in Hrep, Hst, Hfirst, Htime.
  assert (P : 2 ^ 63 < 2 ^ 64) by reflexivity.
  assert (U : meas_start_time (_dev (after m)) = esp_timer_get_time w0).
  { rewrite Htime. unfold u64. apply Z.mod_small. lia. }
  assert (E : elapsed w1 (_dev (after m))
              = esp_timer_get_time w1 - esp_timer_get_time w0).
  { rewrite elapsed_monotonic by (rewrite ?U; lia). rewrite U. reflexivity. }
  assert (M : is_measuring w1 (_dev (after m))
              = (esp_timer_get_time w1 - esp_timer_get_time w0 <? duration_us r)).
  { unfold is_measuring. rewrite Hst, Hfirst, E, Hrep. reflexivity. }
  split.
  - intros Hlt. apply Z.ltb_lt in Hlt. rewrite Hlt in M.
    subst f. rewrite (fetch_still_measuring w1 (after m) Hst M).
    split; [reflexivity |].
    cbn [after ESP_LOGE emit trace]. rewrite bus_reads_app.
    cbn [bus_reads]. lia.
  - intros Hge. apply Z.ltb_ge in Hge. rewrite Hge in M.
    destruct (fetch_cases w1 (after m))
      as [(Hc & _) | [(_ & _ & _ & Ht') | (_ & _ & _ & [Ht' | [msg Ht']])]].
    + rewrite Hst, M in Hc. discriminate Hc.
    + fold f in Ht'. rewrite Ht', bus_reads_app. cbn [bus_reads]. lia.
    + fold f in Ht'. rewrite Ht', bus_reads_app. cbn [bus_reads]. lia.
    + fold f in Ht'. rewrite Ht', bus_reads_app. cbn [bus_reads]. lia.
Qed.

Lemma fetch_after_start_timing_witness :
  ret (unit_enviii_temp_humidity_measure SHT3X_HIGH (world 100 frame_zero) fresh)
  = ESP_OK /\
  ret (unit_enviii_temp_humidity_get (world 15099 frame_zero)
         (after (unit_enviii_temp_humidity_measure SHT3X_HIGH
                   (world 100 frame_zero) fresh)))
  = ESP_ERR_INVALID_STATE /\
  bus_reads (trace (after (unit_enviii_temp_humidity_get (world 15100 frame_zero)
         (after (unit_enviii_temp_humidity_measure SHT3X_HIGH
                   (world 100 frame_zero) fresh)))))
  = 1%nat.
Proof.
  assert (Hm : ret (unit_enviii_temp_humidity_measure SHT3X_HIGH
                      (world 100 frame_zero) fresh) = ESP_OK)
    by (vm_compute; reflexivity).
  assert (B : 15100 < 2 ^ 63) by reflexivity.
  assert (B' : 15099 < 2 ^ 63) by reflexivity.
  split; [exact Hm | split].
  - refine (proj1 (proj1
      (fetch_after_start_timing SHT3X_HIGH (world 100 frame_zero)
         (world 15099 frame_zero) fresh Hm _ B') _)).
    + cbn; lia.
    + vm_compute; reflexivity.
  - refine (proj2
      (fetch_after_start_timing SHT3X_HIGH (world 100 frame_zero)
         (world 15100 frame_zero) fresh Hm _ B) _).
    + cbn; lia.
    + vm_compute; discriminate.
Defined.

(** * Sequences of calls *)

Lemma sht3x_mode_eqb_eq (a b : sht3x_mode_t) :
  sht3x_mode_eqb a b = true <-> a = b.
Proof.
  destruct a, b; cbn; split; intros H; try reflexivity; discriminate H.
Qed.

Lemma fetch_all_app (ws : list env) (w : env) (s : state) :
  fetch_all (w :: ws) s
  = fetch_all ws (after (unit_enviii_temp_humidity_get w s)).
Proof. reflexivity. Qed.

Lemma consumed_periodic_dev (s : state) :
  sht3x_mode_eqb (mode (_dev s)) SHT3X_SINGLE_SHOT = false ->
  meas_first (_dev s) = false ->
  _dev (consumed s) = _dev s.
Proof.
  intros Hm Hf. rewrite consumed_dev, Hm.
  destruct s as [d t]. destruct d. cbn in *. subst. reflexivity.
Qed.

(** X12: a periodic session that is past its first read stays so under
    any number of fetches, at any times and whatever the bus answers:
    each of them reads the bus, none is refused. *)
Theorem periodic_fetches_keep_reading (ws : list env) (s : state) :
  mode (_dev s) <> SHT3X_SINGLE_SHOT ->
  meas_started (_dev s) = true ->
  meas_first (_dev s) = false ->
  let s' := fetch_all ws s in
  mode (_dev s') = mode (_dev s) /\
  meas_started (_dev s') = true /\
  meas_first (_dev s') = false /\
  bus_reads (trace s') = (bus_reads (trace s) + List.length ws)%nat.
Proof.
  revert s. induction ws as [| w ws IH]; intros s Hmode Hst Hfirst.
  - cbn. split; [reflexivity | split; [exact Hst | split; [exact Hfirst | lia]]].
  - cbv zeta. rewrite fetch_all_app.
    assert (Hm : is_measuring w (_dev s) = false).
    { unfold is_measuring. rewrite Hst, Hfirst. reflexivity. }
    assert (Hneq : sht3x_mode_eqb (mode (_dev s)) SHT3X_SINGLE_SHOT = false).
    { destruct (sht3x_mode_eqb _ _) eqn:E; [| reflexivity].
      apply sht3x_mode_eqb_eq in E. contradiction. }
    assert (Step : _dev (after (unit_enviii_temp_humidity_get w s))
                   = _dev s /\
                   bus_reads (trace (after (unit_enviii_temp_humidity_get w s)))
                   = S (bus_reads (trace s))).
    { destruct (fetch_cases w s)
        as [(Hc & _) | [(_ & _ & Hd & Ht) | (_ & _ & Hd & [Ht | [msg Ht]])]].
      - rewrite Hst, Hm in Hc. discriminate Hc.
      - split; [exact Hd |]. rewrite Ht, bus_reads_app. cbn [bus_reads]. lia.
      - split.
        + rewrite Hd. now apply consumed_periodic_dev.
        + rewrite Ht, bus_reads_app. cbn [bus_reads]. lia.
      - split.
        + rewrite Hd. now apply consumed_periodic_dev.
        + rewrite Ht, bus_reads_app. cbn [bus_reads]. lia. }
    destruct Step as [Hd Hb].
    specialize (IH (after (unit_enviii_temp_humidity_get w s))).
    rewrite Hd in IH. specialize (IH Hmode Hst Hfirst). cbv zeta in IH.
    destruct IH as (I1 & I2 & I3 & I4).
    split; [exact I1 | split; [exact I2 | split; [exact I3 |]]].
    rewrite I4, Hb. cbn [List.length]. lia.
Qed.

Lemma periodic_fetches_keep_reading_witness :
  mode (_dev periodic_running) <> SHT3X_SINGLE_SHOT /\
  bus_reads (trace (fetch_all [world 0 frame_zero; world_bus_down 1;
                               world 2 frame_bad_both] periodic_running))
  = 3%nat.
Proof.
  assert (M : mode (_dev periodic_running) <> SHT3X_SINGLE_SHOT) by discriminate.
  split; [exact M |].
  exact (proj2 (proj2 (proj2
    (periodic_fetches_keep_reading
       [world 0 frame_zero; world_bus_down 1; world 2 frame_bad_both]
       periodic_running M eq_refl eq_refl)))).
Defined.

(** Over any calls, the fetches that succeed are at most the starts that
    went through, plus one when a measurement is pending at the
    outset. *)
Lemma count_ok_bound (r : sht3x_repeat_t) (cs : list call) (s : state) :
  (meas_started (_dev s) = true -> mode (_dev s) = SHT3X_SINGLE_SHOT) ->
  (snd (count_ok r cs s)
   <= fst (count_ok r cs s) + (if meas_started (_dev s) then 1 else 0))%nat.
Proof.
  revert s. induction cs as [| c cs IH]; intros s Hinv.
  - cbn. lia.
  - destruct c as [w | w]; cbn [count_ok].
    + set (m := unit_enviii_temp_humidity_measure r w s).
      specialize (IH (after m)).
      destruct (Z.eqb_spec (ret m) ESP_OK) as [Hok | Hko].
      * destruct (measure_ok r w s Hok) as (Hmode & _ & Hst & _).
        fold m in Hmode, Hst. rewrite Hst in IH.
        specialize (IH (fun _ => Hmode)).
        destruct (count_ok r cs (after m)) as [a b]. cbn [fst snd] in *.
        destruct (meas_started (_dev s)); lia.
      * destruct (measure_failed r w s Hko) as (Hmode & Hst).
        fold m in Hmode, Hst. rewrite Hst in IH.
        specialize (IH (fun _ => Hmode)).
        destruct (count_ok r cs (after m)) as [a b]. cbn [fst snd] in *.
        exact IH.
    + set (f := unit_enviii_temp_humidity_get w s).
      specialize (IH (after f)).
      destruct (Z.eqb_spec (ret f) ESP_OK) as [Hok | Hko].
      * destruct (fetch_ok_passed w s Hok) as (H1 & H2 & H3).
        destruct (fetch_read_ok_after w s H1 H2 H3) as [Hd _]. fold f in Hd.
        assert (Hoff : meas_started (_dev (after f)) = false).
        { rewrite Hd. apply consumed_single_shot, Hinv, H1. }
        rewrite Hoff in IH.
        assert (IH' := IH ltac:(discriminate)).
        destruct (count_ok r cs (after f)) as [a b]. cbn [fst snd] in *.
        rewrite H1. lia.
      * assert (Hkeep : (meas_started (_dev (after f)) = true ->
                         mode (_dev (after f)) = SHT3X_SINGLE_SHOT) /\
                        implb (meas_started (_dev (after f)))
                              (meas_started (_dev s)) = true).
        { destruct (fetch_cases w s)
            as [(_ & Hd & _) | [(_ & _ & Hd & _) | (Hc & _ & Hd & _)]];
            fold f in Hd; rewrite Hd.
          - split; [exact Hinv | destruct (meas_started (_dev s)); reflexivity].
          - split; [exact Hinv | destruct (meas_started (_dev s)); reflexivity].
          - apply andb_prop in Hc as [Hst _].
            rewrite consumed_dev.
            cbn [meas_started mode]. rewrite (Hinv Hst). cbn.
            split; [discriminate | reflexivity]. }
        destruct Hkeep as [K1 K2]. specialize (IH K1).
        destruct (count_ok r cs (after f)) as [a b]. cbn [fst snd] in *.
        destruct (meas_started (_dev (after f)));
          destruct (meas_started (_dev s)); try discriminate K2; lia.
Qed.

(** X13: from a session with no measurement pending, over any sequence
    of starts and fetches, whatever the collaborators answer, the
    fetches that return [ESP_OK] are never more than the starts that
    went through: one start yields at most one reading. *)
Theorem one_reading_per_start
    (r : sht3x_repeat_t) (cs : list call) (s : state) :
  meas_started (_dev s) = false ->
  (snd (count_ok r cs s) <= fst (count_ok r cs s))%nat.
Proof.
  intros H.
  pose proof (count_ok_bound r cs s) as B. rewrite H in B.
  rewrite Nat.add_0_r in B. apply B. discriminate.
Qed.

Lemma one_reading_per_start_witness :
  meas_started (_dev fresh) = false /\
  count_ok SHT3X_HIGH
    [CallMeasure (world 0 frame_zero); CallGet (world 20000 frame_zero);
     CallGet (world 30000 frame_zero); CallMeasure (world 40000 frame_zero);
     CallGet (world 60000 frame_zero)] fresh
  = (2%nat, 2%nat) /\
  (snd (count_ok SHT3X_HIGH
    [CallMeasure (world 0 frame_zero); CallGet (world 20000 frame_zero);
     CallGet (world 30000 frame_zero); CallMeasure (world 40000 frame_zero);
     CallGet (world 60000 frame_zero)] fresh)
   <= fst (count_ok SHT3X_HIGH
    [CallMeasure (world 0 frame_zero); CallGet (world 20000 frame_zero);
     CallGet (world 30000 frame_zero); CallMeasure (world 40000 frame_zero);
     CallGet (world 60000 frame_zero)] fresh))%nat.
Proof.
  split; [reflexivity | split; [vm_compute; reflexivity |]].
  apply (one_reading_per_start SHT3X_HIGH _ fresh). reflexivity.
Defined.

(** * Corrupted frames *)

(** A valid frame with exactly one byte changed is no longer valid. *)
Lemma one_changed_byte_invalidates (k : nat) (f g : sht3x_raw_data_t) :
  (k < 6)%nat -> frame_valid f -> differ_at k f g -> ~ frame_valid g.
Proof.
  intros Hk [Vt Vh] [Hne Hsame] [Gt Gh].
  destruct f as [f0 f1 f2 f3 f4 f5], g as [g0 g1 g2 g3 g4 g5].
  cbn [raw0 raw1 raw2 raw3 raw4 raw5] in Vt, Vh, Gt, Gh.
  assert (E0 : k <> 0%nat -> f0 = g0) by (intros N; exact (Hsame 0%nat (not_eq_sym N))).
  assert (E1 : k <> 1%nat -> f1 = g1) by (intros N; exact (Hsame 1%nat (not_eq_sym N))).
  assert (E2 : k <> 2%nat -> f2 = g2) by (intros N; exact (Hsame 2%nat (not_eq_sym N))).
  assert (E3 : k <> 3%nat -> f3 = g3) by (intros N; exact (Hsame 3%nat (not_eq_sym N))).
  assert (E4 : k <> 4%nat -> f4 = g4) by (intros N; exact (Hsame 4%nat (not_eq_sym N))).
  assert (E5 : k <> 5%nat -> f5 = g5) by (intros N; exact (Hsame 5%nat (not_eq_sym N))).
  clear Hsame.
  destruct k as [| [| [| [| [| [| k]]]]]]; cbn [nth raw_array raw0 raw1 raw2 raw3 raw4 raw5] in Hne.
  - rewrite <- (E1 ltac:(discriminate)), <- (E2 ltac:(discriminate)), <- Vt in Gt.
    apply crc8_ref_pair_inj in Gt. apply Hne. symmetry. apply Gt. reflexivity.
  - rewrite <- (E0 ltac:(discriminate)), <- (E2 ltac:(discriminate)), <- Vt in Gt.
    apply crc8_ref_pair_inj in Gt. apply Hne. symmetry. apply Gt. reflexivity.
  - rewrite <- (E0 ltac:(discriminate)), <- (E1 ltac:(discriminate)), Vt in Gt.
    apply byte_val_inj in Gt. contradiction.
  - rewrite <- (E4 ltac:(discriminate)), <- (E5 ltac:(discriminate)), <- Vh in Gh.
    apply crc8_ref_pair_inj in Gh. apply Hne. symmetry. apply Gh. reflexivity.
  - rewrite <- (E3 ltac:(discriminate)), <- (E5 ltac:(discriminate)), <- Vh in Gh.
    apply crc8_ref_pair_inj in Gh. apply Hne. symmetry. apply Gh. reflexivity.
  - rewrite <- (E3 ltac:(discriminate)), <- (E4 ltac:(discriminate)), Vh in Gh.
    apply byte_val_inj in Gh. contradiction.
  - lia.
Qed.

(** X14: a frame that differs from a valid frame in exactly one of its
    six bytes is always rejected: the fetch that receives it returns
    [ESP_ERR_INVALID_CRC] and writes nothing. *)
Theorem corrupted_frame_is_rejected
    (k : nat) (f : sht3x_raw_data_t) (w : env) (s : state) :
  meas_started (_dev s) = true ->
  is_measuring w (_dev s) = false ->
  fst (read_reply w) = ESP_OK ->
  frame_valid f ->
  (k < 6)%nat ->
  differ_at k f (snd (read_reply w)) ->
  ret (unit_enviii_temp_humidity_get w s) = ESP_ERR_INVALID_CRC /\
  out (unit_enviii_temp_humidity_get w s) = (None, None).
Proof.
  intros H1 H2 H3 V Hk D.
  pose proof (one_changed_byte_invalidates k f _ Hk V D) as NV.
  rewrite (fetch_read_ok w s H1 H2 H3). cbv zeta.
  rewrite crc8_temperature, crc8_humidity.
  change (raw_at (snd (read_reply w)) 2)
    with (byte_val (raw2 (snd (read_reply w)))).
  change (raw_at (snd (read_reply w)) 5)
    with (byte_val (raw5 (snd (read_reply w)))).
  destruct (Z.eqb_spec (crc8_ref [raw0 (snd (read_reply w)); raw1 (snd (read_reply w))])
                       (byte_val (raw2 (snd (read_reply w))))) as [Et | _];
    [| split; reflexivity].
  destruct (Z.eqb_spec (crc8_ref [raw3 (snd (read_reply w)); raw4 (snd (read_reply w))])
                       (byte_val (raw5 (snd (read_reply w))))) as [Eh | _];
    [| split; reflexivity].
  exfalso. apply NV. split; assumption.
Qed.

Lemma corrupted_frame_is_rejected_witness :
  frame_valid frame_zero /\
  differ_at 0 frame_zero frame_flipped /\
  ret (unit_enviii_temp_humidity_get (world 20000 frame_flipped) started)
  = ESP_ERR_INVALID_CRC.
Proof.
  assert (V : frame_valid frame_zero) by (split; vm_compute; reflexivity).
  assert (D : differ_at 0 frame_zero frame_flipped).
  { split; [discriminate |]. intros j Hj.
    destruct j as [| [| [| [| [| [| j]]]]]]; try reflexivity. contradiction. }
  assert (S1 : meas_started (_dev started) = true) by reflexivity.
  assert (M1 : is_measuring (world 20000 frame_flipped) (_dev started) = false)
    by (vm_compute; reflexivity).
  split; [exact V | split; [exact D |]].
  refine (proj1 (corrupted_frame_is_rejected 0 frame_zero
                   (world 20000 frame_flipped) started S1 M1 eq_refl V _ D)).
  lia.
Defined.

(** * Initialisation *)

(** X15: after any [unit_enviii_init] that returned, a fetch is refused
    with [ESP_ERR_INVALID_STATE] and the not-started diagnostic, without
    a bus read and without writing its out-parameters: a measurement has
    to be started first. *)
Theorem fetch_after_init_is_refused
    (r : sht3x_repeat_t) (ndebug : bool) (w w' : env) (s : state)
    (res : result (option Z)) :
  unit_enviii_init r ndebug w s = Returned res ->
  let f := unit_enviii_temp_humidity_get w' (after res) in
  ret f = ESP_ERR_INVALID_STATE /\
  out f = (None, None) /\
  trace (after f)
  = trace (after res) ++ [EvLog LOG_ERROR _TAG "Measurement is not started"].
Proof.
  intros Hinit f. subst f.
  rewrite (fetch_not_started w' (after res)
             (init_leaves_not_started r ndebug w s res Hinit)).
  split; [| split]; reflexivity.
Qed.

Lemma fetch_after_init_is_refused_witness :
  exists res,
    unit_enviii_init SHT3X_HIGH false (world 0 frame_zero) fresh = Returned res /\
    ret (unit_enviii_temp_humidity_get (world 20000 frame_zero) (after res))
    = ESP_ERR_INVALID_STATE.
Proof.
  eexists. split; [vm_compute; reflexivity |].
  refine (proj1 (fetch_after_init_is_refused SHT3X_HIGH false
                   (world 0 frame_zero) (world 20000 frame_zero) fresh _ _)).
  vm_compute. reflexivity.
Defined.

Lemma lib_events_app (t u : list Rev1.event1) :
  Rev1.lib_events (t ++ u) = Rev1.lib_events t ++ Rev1.lib_events u.
Proof.
  induction t as [| e t IH]; [reflexivity |].
  destruct e; cbn [app Rev1.lib_events]; rewrite IH; reflexivity.
Qed.

(** X16: the earlier revision of [unit_enviii_init] always runs all
    three library calls in order, always writes the wait duration, and
    returns the bitwise OR of the three return codes: it returns
    [ESP_OK] exactly when all three calls succeeded. *)
Theorem rev1_init_accumulates_codes
    (bus : Z) (r : sht3x_repeat_t) (w : env) (s : Rev1.state1) :
  let res := Rev1.unit_enviii_init bus r w s in
  let err := fst (fst res) in
  err = Z.lor (Z.lor (init_desc_reply w) (init_reply w)) (start_reply w) /\
  (err = ESP_OK <->
   init_desc_reply w = ESP_OK /\ init_reply w = ESP_OK /\
   start_reply w = ESP_OK) /\
  snd (fst res) = Some (sht3x_get_measurement_duration r) /\
  Rev1.lib_events (Rev1.trace1 (snd res))
  = Rev1.lib_events (Rev1.trace1 s)
    ++ [EvInitDesc bus; EvInit; EvStart SHT3X_PERIODIC_1MPS r].
Proof.
  intros res err.
  assert (Hres : err = Z.lor (Z.lor (init_desc_reply w) (init_reply w))
                             (start_reply w) /\
                 snd (fst res) = Some (sht3x_get_measurement_duration r) /\
                 Rev1.lib_events (Rev1.trace1 (snd res))
                 = Rev1.lib_events (Rev1.trace1 s)
                   ++ [EvInitDesc bus; EvInit;
                       EvStart SHT3X_PERIODIC_1MPS r]).
  { subst err res.
    unfold Rev1.unit_enviii_init, Rev1.lift, Rev1.ESP_LOGI,
      Rev1.unit_enviii_duration_get, sht3x_init_desc, sht3x_init,
      sht3x_start_measurement.
    cbv zeta.
    destruct (Z.eqb_spec (start_reply w) ESP_OK) as [E | E];
      cbn [negb fst snd Rev1.dev1 Rev1.trace1 _dev trace emit with_dev map app];
      rewrite ?E, !lib_events_app, <- !app_assoc;
      (split; [reflexivity | split; [destruct r; reflexivity | reflexivity]]). }
  destruct Hres as (He & Hout & Htr).
  split; [exact He | split; [| split; [exact Hout | exact Htr]]].
  rewrite He. unfold ESP_OK. rewrite !Z.lor_eq_0_iff. tauto.
Qed.

Lemma rev1_init_accumulates_codes_witness :
  fst (fst (Rev1.unit_enviii_init 1 SHT3X_HIGH
              (mk_env 0 ESP_ERR_INVALID_ARG ESP_OK ESP_ERR_INVALID_STATE
                      (ESP_OK, frame_zero))
              (Rev1.mk_state1 zero_dev [])))
  = Z.lor (Z.lor ESP_ERR_INVALID_ARG ESP_OK) ESP_ERR_INVALID_STATE /\
  Rev1.lib_events (Rev1.trace1 (snd (Rev1.unit_enviii_init 1 SHT3X_HIGH
              (mk_env 0 ESP_ERR_INVALID_ARG ESP_OK ESP_ERR_INVALID_STATE
                      (ESP_OK, frame_zero))
              (Rev1.mk_state1 zero_dev []))))
  = [EvInitDesc 1; EvInit; EvStart SHT3X_PERIODIC_1MPS SHT3X_HIGH].
Proof.
  pose proof (rev1_init_accumulates_codes 1 SHT3X_HIGH
       (mk_env 0 ESP_ERR_INVALID_ARG ESP_OK ESP_ERR_INVALID_STATE
               (ESP_OK, frame_zero))
       (Rev1.mk_state1 zero_dev [])) as (He & _ & _ & Htr).
  split; [exact He | exact Htr].
Defined.
